(** * AlgoEase bounty escrow: the Algopy contract, embedded and verified

    Source: [AlgoEase/contracts/algoease_bounty_contract.py], class
    [AlgoEaseBountyContract].  The contract keeps one box per bounty and a
    global counter.  Every ABI method is translated line by line into a
    state-and-error monad over the application state (counter, boxes, inner
    payments issued).  A failed [assert], a box access outside the box and a
    rejected inner payment all abort the method; the application call is then
    undone as a whole, which is the function [invoke] below.

    AVM operations used by the source, as the AVM defines them:
    - [itob] "converts uint64 A to big-endian byte array, always of length 8";
    - [btoi] reads a big-endian byte array of at most 8 bytes;
    - a box read or write whose byte range is outside the box fails;
    - [box_create] zero-fills the new box;
    - UInt64 [+] fails on overflow and [-] on underflow.
    The source calls [op.Box.put(name, offset, bytes)]: a write of [bytes]
    into the box at [offset] (the AVM's box_replace), and unpacks
    [op.Box.length(name)] as [(exists, size)]; in the module
    [AlgoEaseBountyContract] both are modelled as the source uses them.

    The released [algopy] library does not provide these calls in that form,
    nor the [op.len] of line 114.  The module [OverLibrary] embeds the same
    methods over a record of the three calls; the library [assumed] gives
    back [AlgoEaseBountyContract], the library [released] is the program as
    it runs against the released library. *)

From Stdlib Require Import ZArith Lia List Bool.
From Stdlib Require Import Strings.Byte.
From stdpp Require Import base decidable countable gmap list.

Open Scope Z_scope.

(** ** Bytes *)

Abbreviation bytes := (list byte).

#[global] Instance byte_eq_decision : EqDecision byte := Byte.byte_eq_dec.

#[global] Instance byte_countable : Countable byte :=
  inj_countable Byte.to_N Byte.of_N Byte.of_to_N.

Definition Z_of_byte (b : byte) : Z := Z.of_N (Byte.to_N b).

Definition byte_of_Z (z : Z) : byte :=
  match Byte.of_N (Z.to_N (z mod 256)) with
  | Some b => b
  | None => x00
  end.

(** [n] bytes, most significant first. *)
Fixpoint be_bytes (n : nat) (z : Z) : bytes :=
  match n with
  | O => []
  | S n' => byte_of_Z (z / 256 ^ Z.of_nat n') :: be_bytes n' z
  end.

(** [op.itob] *)
Definition itob (z : Z) : bytes := be_bytes 8 z.

(** [op.btoi] *)
Definition btoi (bs : bytes) : Z :=
  fold_left (fun acc b => acc * 256 + Z_of_byte b) bs 0.

(** [op.bzero] *)
Definition bzero (n : Z) : bytes := repeat x00 (Z.to_nat n).

(** [op.concat] *)
Definition concat (a b : bytes) : bytes := a ++ b.

(** [op.len] *)
Definition len (a : bytes) : Z := Z.of_nat (length a).

Definition slice (off n : Z) (b : bytes) : bytes :=
  take (Z.to_nat n) (drop (Z.to_nat off) b).

Definition overwrite (off : Z) (v b : bytes) : bytes :=
  take (Z.to_nat off) b ++ v ++ drop (Z.to_nat off + length v) b.

(** ** Values of the ABI *)

(** [Account]: the 32 bytes of an address. *)
Definition Account := bytes.

Definition wf_account (a : Account) : Prop := length a = 32%nat.

Definition uint64 (z : Z) : Prop := 0 <= z < 2 ^ 64.

(** [arc4.String]: the value is its ARC4 encoding, a two-byte big-endian
    length followed by the text; [.bytes] is that encoding and
    [arc4.String(b)] on stored bytes gives the value back. *)
Record arc4_String := mk_arc4_String { arc4_bytes : bytes }.

(** [arc4.String("...")] on a literal. *)
Definition arc4_String_of (text : bytes) : arc4_String :=
  mk_arc4_String (be_bytes 2 (len text) ++ text).

(** ASCII of [bounty_] *)
Definition bounty_prefix_text : bytes := [x62; x6f; x75; x6e; x74; x79; x5f].

(** ** Status constants *)

Definition STATUS_OPEN : Z := 0.
Definition STATUS_ACCEPTED : Z := 1.
Definition STATUS_SUBMITTED : Z := 2.
Definition STATUS_APPROVED : Z := 3.
Definition STATUS_CLAIMED : Z := 4.
Definition STATUS_REJECTED : Z := 5.
Definition STATUS_REFUNDED : Z := 6.

(** ** Application state and call context *)

(** [itxn.Payment(receiver, amount, fee)] *)
Record InnerPayment := mk_payment {
  receiver : Account;
  amount : Z;
  fee : Z
}.

(** [gtxn.PaymentTransaction]: the fields the contract reads. *)
Record PaymentTransaction := mk_gtxn {
  payment_receiver : Account;
  payment_sender : Account;
  payment_amount : Z
}.

Record State := mk_state {
  bounty_count : Z;
  boxes : gmap bytes bytes;
  payments : list InnerPayment  (* inner payments issued, oldest first *)
}.

(** [Txn], [Global] and the ledger's verdict on an inner payment. *)
Record Context := mk_context {
  Txn_sender : Account;
  Txn_group_index : Z;
  Global_group_size : Z;
  Global_latest_timestamp : Z;
  Global_current_application_address : Account;
  ledger_accepts : InnerPayment -> bool
}.

(** The failures of a call.  Each [assert] of the source maps to the
    condition it checks:
    - [InvalidFunding]: "Must be grouped transaction", "Must be second
      transaction in group", "Payment must be to contract", "Payment sender
      must match transaction sender", "Amount must be greater than 0";
    - [DeadlineNotFuture]: "Deadline must be in the future";
    - [NotFound]: "Bounty not found";
    - [InvalidState]: "Bounty must be OPEN to accept", "... ACCEPTED to
      submit", "... SUBMITTED to approve", "... SUBMITTED or ACCEPTED to
      reject", "... APPROVED to claim", "Bounty already claimed / refunded /
      rejected";
    - [DeadlineExpired]: "Bounty deadline has passed", "Deadline has passed,
      use auto_refund";
    - [DeadlineNotExpired]: "Deadline has not passed yet";
    - [InvalidSender]: "Invalid sender address";
    - [SelfDealing]: "Client cannot accept their own bounty";
    - [Unauthorized]: "Only assigned freelancer can ...", "Only creator or
      verifier can ...";
    - [InvalidAmount]: "Invalid amount";
    - [TransferFailed]: the inner payment was rejected at [submit()];
    - [BoxFault]: a box operation the AVM refuses;
    - [ArithFault]: UInt64 overflow or underflow;
    - [ApiFault]: a call the library does not provide: no function of that
      name, or none with these arguments. *)
Inductive error :=
| InvalidFunding | DeadlineNotFuture | NotFound | InvalidState
| DeadlineExpired | DeadlineNotExpired | InvalidSender | SelfDealing
| Unauthorized | InvalidAmount | TransferFailed | BoxFault | ArithFault
| ApiFault.

Inductive result (A : Type) :=
| Ok (a : A)
| Err (e : error).
Arguments Ok {A} a.
Arguments Err {A} e.

(** ** The method monad: state threaded through, stop at the first failure.
    The state component of a failed run is the state reached when the
    failure happened; [invoke] discards it. *)

Definition M (A : Type) : Type := State -> result A * State.

Definition ret {A} (a : A) : M A := fun s => (Ok a, s).

Definition bind {A B} (m : M A) (k : A -> M B) : M B :=
  fun s =>
    match m s with
    | (Ok a, s') => k a s'
    | (Err e, s') => (Err e, s')
    end.

Notation "x <- m ;; k" := (bind m (fun x => k))
  (at level 100, m at next level, right associativity).
Notation "m ;;; k" := (bind m (fun _ => k))
  (at level 100, right associativity).

Definition fail {A} (e : error) : M A := fun s => (Err e, s).

Definition assert (b : bool) (e : error) : M unit :=
  if b then ret tt else fail e.

(** UInt64 arithmetic *)
Definition add_u64 (a b : Z) : M Z :=
  if a + b <? 2 ^ 64 then ret (a + b) else fail ArithFault.

Definition sub_u64 (a b : Z) : M Z :=
  if b <=? a then ret (a - b) else fail ArithFault.

(** ** Box storage *)

Definition MAX_BOX_SIZE : Z := 32768.

Definition set_boxes (bx : gmap bytes bytes) (s : State) : State :=
  mk_state (bounty_count s) bx (payments s).

(** [op.Box.length], as the source unpacks it: [(exists, size)]. *)
Definition Box_length (name : bytes) : M (bool * Z) :=
  fun s =>
    match boxes s !! name with
    | Some b => (Ok (true, len b), s)
    | None => (Ok (false, 0), s)
    end.

(** [op.Box.create] *)
Definition Box_create (name : bytes) (size : Z) : M bool :=
  fun s =>
    if MAX_BOX_SIZE <? size then (Err BoxFault, s) else
    match boxes s !! name with
    | Some b => if len b =? size then (Ok false, s) else (Err BoxFault, s)
    | None => (Ok true, set_boxes (<[name := bzero size]> (boxes s)) s)
    end.

(** [op.Box.extract] *)
Definition Box_extract (name : bytes) (off n : Z) : M bytes :=
  fun s =>
    match boxes s !! name with
    | Some b =>
        if off + n <=? len b then (Ok (slice off n b), s)
        else (Err BoxFault, s)
    | None => (Err BoxFault, s)
    end.

(** [op.Box.put(name, offset, value)] *)
Definition Box_put (name : bytes) (off : Z) (v : bytes) : M unit :=
  fun s =>
    match boxes s !! name with
    | Some b =>
        if off + len v <=? len b
        then (Ok tt, set_boxes (<[name := overwrite off v b]> (boxes s)) s)
        else (Err BoxFault, s)
    | None => (Err BoxFault, s)
    end.

(** [itxn.Payment(...).submit()] *)
Definition itxn_submit (ctx : Context) (p : InnerPayment) : M unit :=
  fun s =>
    if ledger_accepts ctx p
    then (Ok tt, mk_state (bounty_count s) (boxes s) (payments s ++ [p]))
    else (Err TransferFailed, s).

Definition get_bounty_count_field : M Z := fun s => (Ok (bounty_count s), s).

Definition set_bounty_count (n : Z) : M unit :=
  fun s => (Ok tt, mk_state n (boxes s) (payments s)).

Definition bytes_eqb (a b : bytes) : bool := bool_decide (a = b).

(** ** The contract *)

Module AlgoEaseBountyContract.

(** [__init__] *)
Definition init : State := mk_state 0 ∅ [].

(** [op.concat(arc4.String("bounty_").bytes, op.itob(bounty_id))] *)
Definition box_name_of (bounty_id : Z) : bytes :=
  concat (arc4_bytes (arc4_String_of bounty_prefix_text)) (itob bounty_id).

Definition create_bounty (ctx : Context) (payment : PaymentTransaction)
    (verifier : Account) (deadline : Z) (task_description : arc4_String)
    : M Z :=
  assert (Global_group_size ctx =? 2) InvalidFunding ;;;
  assert (Txn_group_index ctx =? 1) InvalidFunding ;;;
  assert (bytes_eqb (payment_receiver payment)
            (Global_current_application_address ctx)) InvalidFunding ;;;
  assert (bytes_eqb (payment_sender payment) (Txn_sender ctx))
    InvalidFunding ;;;
  let amount := payment_amount payment in
  assert (0 <? amount) InvalidFunding ;;;
  assert (Global_latest_timestamp ctx <? deadline) DeadlineNotFuture ;;;
  bounty_id <- get_bounty_count_field ;;
  next <- add_u64 bounty_id 1 ;;
  set_bounty_count next ;;;
  let box_name := box_name_of bounty_id in
  let task_desc_bytes := arc4_bytes task_description in
  let task_desc_len := len task_desc_bytes in
  box_size <- add_u64 113 task_desc_len ;;
  Box_create box_name box_size ;;;
  Box_put box_name 0 (Txn_sender ctx) ;;;
  let zero_address := bzero 32 in
  Box_put box_name 32 zero_address ;;;
  Box_put box_name 64 verifier ;;;
  Box_put box_name 96 (itob amount) ;;;
  Box_put box_name 104 (itob deadline) ;;;
  Box_put box_name 112 (itob STATUS_OPEN) ;;;
  Box_put box_name 113 task_desc_bytes ;;;
  ret bounty_id.

Definition accept_bounty (ctx : Context) (bounty_id : Z) : M bool :=
  let box_name := box_name_of bounty_id in
  box <- Box_length box_name ;;
  let '(box_exists, box_size) := box in
  assert box_exists NotFound ;;;
  client <- Box_extract box_name 0 32 ;;
  freelancer <- Box_extract box_name 32 32 ;;
  deadline_b <- Box_extract box_name 104 8 ;;
  let deadline := btoi deadline_b in
  status_b <- Box_extract box_name 112 1 ;;
  let status := btoi status_b in
  assert (status =? STATUS_OPEN) InvalidState ;;;
  assert (Global_latest_timestamp ctx <? deadline) DeadlineExpired ;;;
  let zero_address := bzero 32 in
  assert (negb (bytes_eqb (Txn_sender ctx) zero_address)) InvalidSender ;;;
  assert (negb (bytes_eqb (Txn_sender ctx) client)) SelfDealing ;;;
  Box_put box_name 32 (Txn_sender ctx) ;;;
  Box_put box_name 112 (itob STATUS_ACCEPTED) ;;;
  ret true.

Definition submit_bounty (ctx : Context) (bounty_id : Z) : M bool :=
  let box_name := box_name_of bounty_id in
  box <- Box_length box_name ;;
  let '(box_exists, _) := box in
  assert box_exists NotFound ;;;
  freelancer <- Box_extract box_name 32 32 ;;
  status_b <- Box_extract box_name 112 1 ;;
  let status := btoi status_b in
  assert (status =? STATUS_ACCEPTED) InvalidState ;;;
  assert (bytes_eqb (Txn_sender ctx) freelancer) Unauthorized ;;;
  Box_put box_name 112 (itob STATUS_SUBMITTED) ;;;
  ret true.

Definition approve_bounty (ctx : Context) (bounty_id : Z) : M bool :=
  let box_name := box_name_of bounty_id in
  box <- Box_length box_name ;;
  let '(box_exists, _) := box in
  assert box_exists NotFound ;;;
  client <- Box_extract box_name 0 32 ;;
  verifier <- Box_extract box_name 64 32 ;;
  status_b <- Box_extract box_name 112 1 ;;
  let status := btoi status_b in
  assert (status =? STATUS_SUBMITTED) InvalidState ;;;
  assert (bytes_eqb (Txn_sender ctx) client
          || bytes_eqb (Txn_sender ctx) verifier) Unauthorized ;;;
  Box_put box_name 112 (itob STATUS_APPROVED) ;;;
  ret true.

Definition reject_bounty (ctx : Context) (bounty_id : Z) : M bool :=
  let box_name := box_name_of bounty_id in
  box <- Box_length box_name ;;
  let '(box_exists, _) := box in
  assert box_exists NotFound ;;;
  client <- Box_extract box_name 0 32 ;;
  verifier <- Box_extract box_name 64 32 ;;
  amount_b <- Box_extract box_name 96 8 ;;
  let amount := btoi amount_b in
  status_b <- Box_extract box_name 112 1 ;;
  let status := btoi status_b in
  assert ((status =? STATUS_SUBMITTED) || (status =? STATUS_ACCEPTED))
    InvalidState ;;;
  assert (bytes_eqb (Txn_sender ctx) client
          || bytes_eqb (Txn_sender ctx) verifier) Unauthorized ;;;
  assert (0 <? amount) InvalidAmount ;;;
  Box_put box_name 112 (itob STATUS_REJECTED) ;;;
  itxn_submit ctx (mk_payment client amount 0) ;;;
  ret true.

Definition claim_bounty (ctx : Context) (bounty_id : Z) : M bool :=
  let box_name := box_name_of bounty_id in
  box <- Box_length box_name ;;
  let '(box_exists, _) := box in
  assert box_exists NotFound ;;;
  freelancer <- Box_extract box_name 32 32 ;;
  amount_b <- Box_extract box_name 96 8 ;;
  let amount := btoi amount_b in
  status_b <- Box_extract box_name 112 1 ;;
  let status := btoi status_b in
  assert (status =? STATUS_APPROVED) InvalidState ;;;
  assert (bytes_eqb (Txn_sender ctx) freelancer) Unauthorized ;;;
  assert (0 <? amount) InvalidAmount ;;;
  Box_put box_name 112 (itob STATUS_CLAIMED) ;;;
  itxn_submit ctx (mk_payment freelancer amount 0) ;;;
  ret true.

Definition refund_bounty (ctx : Context) (bounty_id : Z) : M bool :=
  let box_name := box_name_of bounty_id in
  box <- Box_length box_name ;;
  let '(box_exists, _) := box in
  assert box_exists NotFound ;;;
  client <- Box_extract box_name 0 32 ;;
  verifier <- Box_extract box_name 64 32 ;;
  amount_b <- Box_extract box_name 96 8 ;;
  let amount := btoi amount_b in
  deadline_b <- Box_extract box_name 104 8 ;;
  let deadline := btoi deadline_b in
  status_b <- Box_extract box_name 112 1 ;;
  let status := btoi status_b in
  assert (negb (status =? STATUS_CLAIMED)) InvalidState ;;;
  assert (negb (status =? STATUS_REFUNDED)) InvalidState ;;;
  assert (negb (status =? STATUS_REJECTED)) InvalidState ;;;
  assert (Global_latest_timestamp ctx <? deadline) DeadlineExpired ;;;
  assert (bytes_eqb (Txn_sender ctx) client
          || bytes_eqb (Txn_sender ctx) verifier) Unauthorized ;;;
  assert (0 <? amount) InvalidAmount ;;;
  Box_put box_name 112 (itob STATUS_REFUNDED) ;;;
  itxn_submit ctx (mk_payment client amount 0) ;;;
  ret true.

Definition auto_refund (ctx : Context) (bounty_id : Z) : M bool :=
  let box_name := box_name_of bounty_id in
  box <- Box_length box_name ;;
  let '(box_exists, _) := box in
  assert box_exists NotFound ;;;
  client <- Box_extract box_name 0 32 ;;
  amount_b <- Box_extract box_name 96 8 ;;
  let amount := btoi amount_b in
  deadline_b <- Box_extract box_name 104 8 ;;
  let deadline := btoi deadline_b in
  status_b <- Box_extract box_name 112 1 ;;
  let status := btoi status_b in
  assert (negb (status =? STATUS_CLAIMED)) InvalidState ;;;
  assert (negb (status =? STATUS_REFUNDED)) InvalidState ;;;
  assert (negb (status =? STATUS_REJECTED)) InvalidState ;;;
  assert (deadline <=? Global_latest_timestamp ctx) DeadlineNotExpired ;;;
  assert (0 <? amount) InvalidAmount ;;;
  Box_put box_name 112 (itob STATUS_REFUNDED) ;;;
  itxn_submit ctx (mk_payment client amount 0) ;;;
  ret true.

(** The tuple [get_bounty_info] returns. *)
Record BountyInfo := mk_info {
  info_client : Account;
  info_freelancer : Account;
  info_verifier : Account;
  info_amount : Z;
  info_deadline : Z;
  info_status : Z;
  info_task_description : arc4_String
}.

Definition get_bounty_info (bounty_id : Z) : M BountyInfo :=
  let box_name := box_name_of bounty_id in
  box <- Box_length box_name ;;
  let '(box_exists, box_size) := box in
  assert box_exists NotFound ;;;
  client <- Box_extract box_name 0 32 ;;
  freelancer <- Box_extract box_name 32 32 ;;
  verifier <- Box_extract box_name 64 32 ;;
  amount_b <- Box_extract box_name 96 8 ;;
  let amount := btoi amount_b in
  deadline_b <- Box_extract box_name 104 8 ;;
  let deadline := btoi deadline_b in
  status_b <- Box_extract box_name 112 1 ;;
  let status := btoi status_b in
  task_desc_len <- sub_u64 box_size 113 ;;
  task_desc_bytes <- Box_extract box_name 113 task_desc_len ;;
  let task_description := mk_arc4_String task_desc_bytes in
  ret (mk_info client freelancer verifier amount deadline status
         task_description).

Definition get_bounty_count : M Z :=
  get_bounty_count_field.

End AlgoEaseBountyContract.

Import AlgoEaseBountyContract.

(** ** The public call surface *)

Inductive call :=
| Create (payment : PaymentTransaction) (verifier : Account) (deadline : Z)
    (task_description : arc4_String)
| Accept (bounty_id : Z)
| Submit (bounty_id : Z)
| Approve (bounty_id : Z)
| Reject (bounty_id : Z)
| Claim (bounty_id : Z)
| Refund (bounty_id : Z)
| AutoRefund (bounty_id : Z)
| GetInfo (bounty_id : Z)
| GetCount.

Inductive retval :=
| RId (bounty_id : Z)
| RBool (b : bool)
| RInfo (info : BountyInfo)
| RCount (n : Z).

Definition fmap_M {A B} (f : A -> B) (m : M A) : M B :=
  a <- m ;; ret (f a).

(** The ARC4 router: one method per call. *)
Definition dispatch (ctx : Context) (c : call) : M retval :=
  match c with
  | Create p v d t => fmap_M RId (create_bounty ctx p v d t)
  | Accept i => fmap_M RBool (accept_bounty ctx i)
  | Submit i => fmap_M RBool (submit_bounty ctx i)
  | Approve i => fmap_M RBool (approve_bounty ctx i)
  | Reject i => fmap_M RBool (reject_bounty ctx i)
  | Claim i => fmap_M RBool (claim_bounty ctx i)
  | Refund i => fmap_M RBool (refund_bounty ctx i)
  | AutoRefund i => fmap_M RBool (auto_refund ctx i)
  | GetInfo i => fmap_M RInfo (get_bounty_info i)
  | GetCount => fmap_M RCount get_bounty_count
  end.

(** One application call.  A call that fails leaves no trace: the AVM undoes
    every box write, counter update and inner transaction of a failed
    program. *)
Definition invoke (ctx : Context) (c : call) (s : State)
    : result retval * State :=
  match dispatch ctx c s with
  | (Ok v, s') => (Ok v, s')
  | (Err e, _) => (Err e, s)
  end.

(** A sequence of calls, each in its own context. *)
Fixpoint run (tr : list (Context * call)) (s : State) : State :=
  match tr with
  | [] => s
  | (ctx, c) :: tr' => run tr' (snd (invoke ctx c s))
  end.

(** The identifiers returned by the successful [create_bounty] calls of a
    sequence, in order. *)
Fixpoint issued_ids (tr : list (Context * call)) (s : State) : list Z :=
  match tr with
  | [] => []
  | (ctx, c) :: tr' =>
      match invoke ctx c s with
      | (Ok (RId i), s') => i :: issued_ids tr' s'
      | (_, s') => issued_ids tr' s'
      end
  end.

(** The bounty a call names, for the calls that change a record. *)
Definition target (c : call) : option Z :=
  match c with
  | Accept i | Submit i | Approve i | Reject i | Claim i | Refund i
  | AutoRefund i => Some i
  | Create _ _ _ _ | GetInfo _ | GetCount => None
  end.

(** ** The stored record, field by field, at the offsets the methods read *)

Definition stored_client (b : bytes) : Account := slice 0 32 b.
Definition stored_freelancer (b : bytes) : Account := slice 32 32 b.
Definition stored_verifier (b : bytes) : Account := slice 64 32 b.
Definition stored_amount (b : bytes) : Z := btoi (slice 96 8 b).
Definition stored_deadline (b : bytes) : Z := btoi (slice 104 8 b).
Definition stored_status (b : bytes) : Z := btoi (slice 112 1 b).
Definition stored_task_description (b : bytes) : bytes :=
  slice 113 (len b - 113) b.

Definition terminal (status : Z) : bool :=
  (status =? STATUS_CLAIMED) || (status =? STATUS_REJECTED)
  || (status =? STATUS_REFUNDED).

(** Every stored record reads as [STATUS_OPEN]. *)
Definition status_byte_zero (s : State) : Prop :=
  forall name b, boxes s !! name = Some b -> b !! 112%nat = Some x00.

(** ** A concrete scenario *)

Definition alice : Account := repeat x01 32.   (* client *)
Definition bob : Account := repeat x02 32.     (* worker *)
Definition carol : Account := repeat x03 32.   (* verifier *)
Definition escrow : Account := repeat xff 32.  (* application address *)

Definition at_time (who : Account) (now : Z) : Context :=
  mk_context who 1 2 now escrow (fun _ => true).

(** ASCII of [hello] *)
Definition hello : arc4_String := arc4_String_of [x68; x65; x6c; x6c; x6f].

Definition create_hello : Context * call :=
  (at_time alice 10, Create (mk_gtxn escrow alice 1000) carol 110 hello).

(** A record as the layout comment of [create_bounty] describes it: the
    status is the single byte at offset 112. *)
Definition record_with_status (status : byte) : bytes :=
  alice ++ bob ++ carol ++ itob 1000 ++ itob 110 ++ [status]
  ++ arc4_bytes hello.

Definition state_with_status (status : byte) : State :=
  mk_state 1 {[ box_name_of 0 := record_with_status status ]} [].

(** What [get_bounty_info] reports for a bounty, if anything. *)
Definition info_of (s : State) (bounty_id : Z) : option BountyInfo :=
  match fst (get_bounty_info bounty_id s) with
  | Ok info => Some info
  | Err _ => None
  end.

Definition dave : Account := repeat x04 32.    (* a second client *)

Definition create_by_dave : Context * call :=
  (at_time dave 10, Create (mk_gtxn escrow dave 1000) carol 110 hello).

Definition accept_by_bob : Context * call := (at_time bob 11, Accept 0).
Definition refund_at (now : Z) : Context * call :=
  (at_time alice now, Refund 0).
(** ** Notions used to state further properties *)

(** The box a call may write: the new record's for [create_bounty], the
    named record's for the calls that change one. *)
Definition touched (c : call) (s : State) : option bytes :=
  match c with
  | Create _ _ _ _ => Some (box_name_of (bounty_count s))
  | _ => box_name_of <$> target c
  end.

(** ABI typing of a call: an [Account] is 32 bytes, a [UInt64] argument is
    in range. *)
Definition well_typed (x : Context * call) : Prop :=
  wf_account (Txn_sender (fst x)) /\
  match snd x with
  | Create p v d _ => wf_account v /\ uint64 (payment_amount p) /\ uint64 d
  | Accept i | Submit i | Approve i | Reject i | Claim i | Refund i
  | AutoRefund i | GetInfo i => uint64 i
  | GetCount => True
  end.

(** The boxes are exactly those of the identifiers issued so far. *)
Definition consistent (s : State) : Prop :=
  0 <= bounty_count s < 2 ^ 64 /\
  forall name,
    is_Some (boxes s !! name)
    <-> exists id, 0 <= id < bounty_count s /\ name = box_name_of id.

(** The funding checks of [create_bounty], in the order of its asserts. *)
Definition funding_ok (ctx : Context) (payment : PaymentTransaction) : bool :=
  (Global_group_size ctx =? 2) && (Txn_group_index ctx =? 1)
  && bytes_eqb (payment_receiver payment)
       (Global_current_application_address ctx)
  && bytes_eqb (payment_sender payment) (Txn_sender ctx)
  && (0 <? payment_amount payment).

(** Two versions of a record with the same length, client, verifier, amount
    and deadline. *)
Definition same_terms (b b' : bytes) : Prop :=
  len b' = len b
  /\ stored_client b' = stored_client b
  /\ stored_verifier b' = stored_verifier b
  /\ stored_amount b' = stored_amount b
  /\ stored_deadline b' = stored_deadline b.

Definition amounts_positive (s : State) : Prop :=
  forall name b, boxes s !! name = Some b -> 0 < stored_amount b.

(** ** The PyTeal variant: helpers of [algoease_contract_v6.py] *)

Module AlgoEaseV6.

(** [Extract(b, start, length)]: fails outside [b]. *)
Definition Extract (b : bytes) (start length : Z) : option bytes :=
  if start + length <=? len b then Some (slice start length b) else None.

(** [BOX_PREFIX = Bytes("bounty_")] *)
Definition BOX_PREFIX : bytes := bounty_prefix_text.

Definition get_bounty_box_name (bounty_id : Z) : bytes :=
  concat BOX_PREFIX (itob bounty_id).

Definition status_to_bytes (status : Z) : option bytes :=
  Extract (itob status) 7 1.

End AlgoEaseV6.

(** * The contract over the library it calls

    Three calls of the source are not calls of the released [algopy]:
    - line 114, [op.len(task_desc_bytes)]: [algopy.op] has no [len];
    - lines 121-140, 185-186, 221, 259, 301, 349, 404 and 453,
      [op.Box.put(box_name, offset, bytes)]: [op.Box.put] takes
      [(key, value)]; the write at an offset is [op.Box.replace];
    - lines 161, 207, 244, 282, 331, 379, 432 and 481,
      [box_exists, box_size = op.Box.length(box_name)]: [op.Box.length]
      returns [(size, exists)].
    (The return annotation of [get_bounty_info], line 468, is not a
    well-formed [arc4.Tuple] either; the method bodies are embedded as they
    run once the class is defined.)

    The methods are written once, over a record of these three calls, and
    two libraries are given: [assumed], the calls as the source uses them,
    and [released], the calls as the released library answers them. *)

Record Library := mk_library {
  op_len : bytes -> M Z;
  op_Box_put : bytes -> Z -> bytes -> M unit;
  (* a pair; the source asserts the first component and subtracts from the
     second *)
  op_Box_length : bytes -> M (Z * Z)
}.

(** A [bool] used as a number, and a number used as a condition. *)
Definition flag (b : bool) : Z := if b then 1 else 0.
Definition truthy (z : Z) : bool := negb (z =? 0).

(** The library the source assumes: [op.len] is the length, [op.Box.put]
    writes at an offset, [op.Box.length] is [(exists, size)]. *)
Definition assumed : Library :=
  mk_library
    (fun b => ret (len b))
    Box_put
    (fun name => box <- Box_length name ;; ret (flag (fst box), snd box)).

(** The released library: no [op.len]; no [op.Box.put] of three arguments;
    [op.Box.length] is [(size, exists)]. *)
Module Released.

Definition op_len (b : bytes) : M Z := fail ApiFault.

Definition Box_put (name : bytes) (off : Z) (v : bytes) : M unit :=
  fail ApiFault.

Definition Box_length (name : bytes) : M (Z * Z) :=
  fun s =>
    match boxes s !! name with
    | Some b => (Ok (len b, flag true), s)
    | None => (Ok (0, flag false), s)
    end.

End Released.

Definition released : Library :=
  mk_library Released.op_len Released.Box_put Released.Box_length.

Module OverLibrary.

Definition create_bounty (lib : Library) (ctx : Context)
    (payment : PaymentTransaction) (verifier : Account) (deadline : Z)
    (task_description : arc4_String) : M Z :=
  assert (Global_group_size ctx =? 2) InvalidFunding ;;;
  assert (Txn_group_index ctx =? 1) InvalidFunding ;;;
  assert (bytes_eqb (payment_receiver payment)
            (Global_current_application_address ctx)) InvalidFunding ;;;
  assert (bytes_eqb (payment_sender payment) (Txn_sender ctx))
    InvalidFunding ;;;
  let amount := payment_amount payment in
  assert (0 <? amount) InvalidFunding ;;;
  assert (Global_latest_timestamp ctx <? deadline) DeadlineNotFuture ;;;
  bounty_id <- get_bounty_count_field ;;
  next <- add_u64 bounty_id 1 ;;
  set_bounty_count next ;;;
  let box_name := box_name_of bounty_id in
  let task_desc_bytes := arc4_bytes task_description in
  task_desc_len <- op_len lib task_desc_bytes ;;
  box_size <- add_u64 113 task_desc_len ;;
  Box_create box_name box_size ;;;
  op_Box_put lib box_name 0 (Txn_sender ctx) ;;;
  let zero_address := bzero 32 in
  op_Box_put lib box_name 32 zero_address ;;;
  op_Box_put lib box_name 64 verifier ;;;
  op_Box_put lib box_name 96 (itob amount) ;;;
  op_Box_put lib box_name 104 (itob deadline) ;;;
  op_Box_put lib box_name 112 (itob STATUS_OPEN) ;;;
  op_Box_put lib box_name 113 task_desc_bytes ;;;
  ret bounty_id.

Definition accept_bounty (lib : Library) (ctx : Context) (bounty_id : Z)
    : M bool :=
  let box_name := box_name_of bounty_id in
  box <- op_Box_length lib box_name ;;
  let '(box_exists, box_size) := box in
  assert (truthy box_exists) NotFound ;;;
  client <- Box_extract box_name 0 32 ;;
  freelancer <- Box_extract box_name 32 32 ;;
  deadline_b <- Box_extract box_name 104 8 ;;
  let deadline := btoi deadline_b in
  status_b <- Box_extract box_name 112 1 ;;
  let status := btoi status_b in
  assert (status =? STATUS_OPEN) InvalidState ;;;
  assert (Global_latest_timestamp ctx <? deadline) DeadlineExpired ;;;
  let zero_address := bzero 32 in
  assert (negb (bytes_eqb (Txn_sender ctx) zero_address)) InvalidSender ;;;
  assert (negb (bytes_eqb (Txn_sender ctx) client)) SelfDealing ;;;
  op_Box_put lib box_name 32 (Txn_sender ctx) ;;;
  op_Box_put lib box_name 112 (itob STATUS_ACCEPTED) ;;;
  ret true.

Definition submit_bounty (lib : Library) (ctx : Context) (bounty_id : Z)
    : M bool :=
  let box_name := box_name_of bounty_id in
  box <- op_Box_length lib box_name ;;
  let '(box_exists, _) := box in
  assert (truthy box_exists) NotFound ;;;
  freelancer <- Box_extract box_name 32 32 ;;
  status_b <- Box_extract box_name 112 1 ;;
  let status := btoi status_b in
  assert (status =? STATUS_ACCEPTED) InvalidState ;;;
  assert (bytes_eqb (Txn_sender ctx) freelancer) Unauthorized ;;;
  op_Box_put lib box_name 112 (itob STATUS_SUBMITTED) ;;;
  ret true.

Definition approve_bounty (lib : Library) (ctx : Context) (bounty_id : Z)
    : M bool :=
  let box_name := box_name_of bounty_id in
  box <- op_Box_length lib box_name ;;
  let '(box_exists, _) := box in
  assert (truthy box_exists) NotFound ;;;
  client <- Box_extract box_name 0 32 ;;
  verifier <- Box_extract box_name 64 32 ;;
  status_b <- Box_extract box_name 112 1 ;;
  let status := btoi status_b in
  assert (status =? STATUS_SUBMITTED) InvalidState ;;;
  assert (bytes_eqb (Txn_sender ctx) client
          || bytes_eqb (Txn_sender ctx) verifier) Unauthorized ;;;
  op_Box_put lib box_name 112 (itob STATUS_APPROVED) ;;;
  ret true.

Definition reject_bounty (lib : Library) (ctx : Context) (bounty_id : Z)
    : M bool :=
  let box_name := box_name_of bounty_id in
  box <- op_Box_length lib box_name ;;
  let '(box_exists, _) := box in
  assert (truthy box_exists) NotFound ;;;
  client <- Box_extract box_name 0 32 ;;
  verifier <- Box_extract box_name 64 32 ;;
  amount_b <- Box_extract box_name 96 8 ;;
  let amount := btoi amount_b in
  status_b <- Box_extract box_name 112 1 ;;
  let status := btoi status_b in
  assert ((status =? STATUS_SUBMITTED) || (status =? STATUS_ACCEPTED))
    InvalidState ;;;
  assert (bytes_eqb (Txn_sender ctx) client
          || bytes_eqb (Txn_sender ctx) verifier) Unauthorized ;;;
  assert (0 <? amount) InvalidAmount ;;;
  op_Box_put lib box_name 112 (itob STATUS_REJECTED) ;;;
  itxn_submit ctx (mk_payment client amount 0) ;;;
  ret true.

Definition claim_bounty (lib : Library) (ctx : Context) (bounty_id : Z)
    : M bool :=
  let box_name := box_name_of bounty_id in
  box <- op_Box_length lib box_name ;;
  let '(box_exists, _) := box in
  assert (truthy box_exists) NotFound ;;;
  freelancer <- Box_extract box_name 32 32 ;;
  amount_b <- Box_extract box_name 96 8 ;;
  let amount := btoi amount_b in
  status_b <- Box_extract box_name 112 1 ;;
  let status := btoi status_b in
  assert (status =? STATUS_APPROVED) InvalidState ;;;
  assert (bytes_eqb (Txn_sender ctx) freelancer) Unauthorized ;;;
  assert (0 <? amount) InvalidAmount ;;;
  op_Box_put lib box_name 112 (itob STATUS_CLAIMED) ;;;
  itxn_submit ctx (mk_payment freelancer amount 0) ;;;
  ret true.

Definition refund_bounty (lib : Library) (ctx : Context) (bounty_id : Z)
    : M bool :=
  let box_name := box_name_of bounty_id in
  box <- op_Box_length lib box_name ;;
  let '(box_exists, _) := box in
  assert (truthy box_exists) NotFound ;;;
  client <- Box_extract box_name 0 32 ;;
  verifier <- Box_extract box_name 64 32 ;;
  amount_b <- Box_extract box_name 96 8 ;;
  let amount := btoi amount_b in
  deadline_b <- Box_extract box_name 104 8 ;;
  let deadline := btoi deadline_b in
  status_b <- Box_extract box_name 112 1 ;;
  let status := btoi status_b in
  assert (negb (status =? STATUS_CLAIMED)) InvalidState ;;;
  assert (negb (status =? STATUS_REFUNDED)) InvalidState ;;;
  assert (negb (status =? STATUS_REJECTED)) InvalidState ;;;
  assert (Global_latest_timestamp ctx <? deadline) DeadlineExpired ;;;
  assert (bytes_eqb (Txn_sender ctx) client
          || bytes_eqb (Txn_sender ctx) verifier) Unauthorized ;;;
  assert (0 <? amount) InvalidAmount ;;;
  op_Box_put lib box_name 112 (itob STATUS_REFUNDED) ;;;
  itxn_submit ctx (mk_payment client amount 0) ;;;
  ret true.

Definition auto_refund (lib : Library) (ctx : Context) (bounty_id : Z)
    : M bool :=
  let box_name := box_name_of bounty_id in
  box <- op_Box_length lib box_name ;;
  let '(box_exists, _) := box in
  assert (truthy box_exists) NotFound ;;;
  client <- Box_extract box_name 0 32 ;;
  amount_b <- Box_extract box_name 96 8 ;;
  let amount := btoi amount_b in
  deadline_b <- Box_extract box_name 104 8 ;;
  let deadline := btoi deadline_b in
  status_b <- Box_extract box_name 112 1 ;;
  let status := btoi status_b in
  assert (negb (status =? STATUS_CLAIMED)) InvalidState ;;;
  assert (negb (status =? STATUS_REFUNDED)) InvalidState ;;;
  assert (negb (status =? STATUS_REJECTED)) InvalidState ;;;
  assert (deadline <=? Global_latest_timestamp ctx) DeadlineNotExpired ;;;
  assert (0 <? amount) InvalidAmount ;;;
  op_Box_put lib box_name 112 (itob STATUS_REFUNDED) ;;;
  itxn_submit ctx (mk_payment client amount 0) ;;;
  ret true.

Definition get_bounty_info (lib : Library) (bounty_id : Z) : M BountyInfo :=
  let box_name := box_name_of bounty_id in
  box <- op_Box_length lib box_name ;;
  let '(box_exists, box_size) := box in
  assert (truthy box_exists) NotFound ;;;
  client <- Box_extract box_name 0 32 ;;
  freelancer <- Box_extract box_name 32 32 ;;
  verifier <- Box_extract box_name 64 32 ;;
  amount_b <- Box_extract box_name 96 8 ;;
  let amount := btoi amount_b in
  deadline_b <- Box_extract box_name 104 8 ;;
  let deadline := btoi deadline_b in
  status_b <- Box_extract box_name 112 1 ;;
  let status := btoi status_b in
  task_desc_len <- sub_u64 box_size 113 ;;
  task_desc_bytes <- Box_extract box_name 113 task_desc_len ;;
  let task_description := mk_arc4_String task_desc_bytes in
  ret (mk_info client freelancer verifier amount deadline status
         task_description).

Definition get_bounty_count : M Z :=
  get_bounty_count_field.

Definition dispatch (lib : Library) (ctx : Context) (c : call) : M retval :=
  match c with
  | Create p v d t => fmap_M RId (create_bounty lib ctx p v d t)
  | Accept i => fmap_M RBool (accept_bounty lib ctx i)
  | Submit i => fmap_M RBool (submit_bounty lib ctx i)
  | Approve i => fmap_M RBool (approve_bounty lib ctx i)
  | Reject i => fmap_M RBool (reject_bounty lib ctx i)
  | Claim i => fmap_M RBool (claim_bounty lib ctx i)
  | Refund i => fmap_M RBool (refund_bounty lib ctx i)
  | AutoRefund i => fmap_M RBool (auto_refund lib ctx i)
  | GetInfo i => fmap_M RInfo (get_bounty_info lib i)
  | GetCount => fmap_M RCount get_bounty_count
  end.

(** One application call: a failed call is undone as a whole. *)
Definition invoke (lib : Library) (ctx : Context) (c : call) (s : State)
    : result retval * State :=
  match dispatch lib ctx c s with
  | (Ok v, s') => (Ok v, s')
  | (Err e, _) => (Err e, s)
  end.

Fixpoint run (lib : Library) (tr : list (Context * call)) (s : State)
    : State :=
  match tr with
  | [] => s
  | (ctx, c) :: tr' => run lib tr' (snd (invoke lib ctx c s))
  end.

End OverLibrary.

(** ** Notions used to state what the contract does on the released
    library *)

(** A run of a method body that stopped with the state it started from, and
    not at the inner payment. *)
Definition refused {A} (x : result A * State) (s : State) : Prop :=
  exists e, x = (Err e, s) /\ e <> TransferFailed.




(** A bounty with an empty task description, and the submission of
    bounty 0 by its freelancer. *)
Definition empty_description : arc4_String := arc4_String_of [].

Definition create_empty : Context * call :=
  (at_time alice 10,
   Create (mk_gtxn escrow alice 1000) carol 110 empty_description).

Definition submit_by_bob : Context * call := (at_time bob 12, Submit 0).

(** * Bytes and integers *)

Arguments slice : simpl never.
Arguments overwrite : simpl never.
Arguments len : simpl never.
Arguments itob : simpl never.
Arguments btoi : simpl never.
Arguments bzero : simpl never.
Arguments box_name_of : simpl never.

Lemma Z_of_byte_of_Z z : Z_of_byte (byte_of_Z z) = z mod 256.
Proof.
  unfold Z_of_byte, byte_of_Z.
  assert (Hr : 0 <= z mod 256 < 256) by (apply Z.mod_pos_bound; lia).
  destruct (Byte.of_N (Z.to_N (z mod 256))) as [b|] eqn:E.
  - apply Byte.to_of_N in E. rewrite E. lia.
  - apply Byte.of_N_None_iff in E. lia.
Qed.

Lemma length_be_bytes n z : length (be_bytes n z) = n.
Proof. induction n as [|n IH]; simpl; [done | by rewrite IH]. Qed.

Lemma fold_be_bytes n z acc :
  fold_left (fun a b => a * 256 + Z_of_byte b) (be_bytes n z) acc
  = acc * 256 ^ Z.of_nat n + z mod 256 ^ Z.of_nat n.
Proof.
  revert acc. induction n as [|n IH]; intros acc.
  - simpl. rewrite Z.mod_1_r. lia.
  - cbn [be_bytes fold_left]. rewrite IH, Z_of_byte_of_Z.
    replace (Z.of_nat (S n)) with (Z.of_nat n + 1) by lia.
    rewrite Z.pow_add_r by lia. change (256 ^ 1) with 256.
    assert (Hp : 0 < 256 ^ Z.of_nat n) by (apply Z.pow_pos_nonneg; lia).
    rewrite (Z.rem_mul_r z (256 ^ Z.of_nat n) 256) by lia. lia.
Qed.

Lemma btoi_be_bytes n z :
  0 <= z < 256 ^ Z.of_nat n -> btoi (be_bytes n z) = z.
Proof.
  intros Hz. unfold btoi. rewrite fold_be_bytes, Z.mod_small by done. lia.
Qed.

Lemma btoi_itob z : uint64 z -> btoi (itob z) = z.
Proof. intros Hz. apply btoi_be_bytes. exact Hz. Qed.

Lemma len_itob z : len (itob z) = 8.
Proof. unfold len, itob. by rewrite length_be_bytes. Qed.

Lemma len_bzero n : 0 <= n -> len (bzero n) = n.
Proof. intros Hn. unfold len, bzero. rewrite repeat_length. lia. Qed.

(** ** Reading and writing a byte range *)

Lemma lookup_slice off n (b : bytes) (i : nat) :
  slice off n b !! i
  = if decide (i < Z.to_nat n)%nat then b !! (Z.to_nat off + i)%nat else None.
Proof.
  unfold slice. destruct (decide (i < Z.to_nat n)%nat) as [Hi|Hi].
  - by rewrite lookup_take_lt, lookup_drop.
  - apply lookup_take_ge. lia.
Qed.

Lemma lookup_overwrite off v (b : bytes) (i : nat) :
  0 <= off -> off + len v <= len b ->
  overwrite off v b !! i
  = if decide (i < Z.to_nat off)%nat then b !! i
    else if decide (i < Z.to_nat off + length v)%nat
         then v !! (i - Z.to_nat off)%nat
         else b !! i.
Proof.
  unfold overwrite, len. intros Hoff Hfit.
  assert (Ht : length (take (Z.to_nat off) b) = Z.to_nat off)
    by (rewrite length_take; lia).
  destruct (decide (i < Z.to_nat off)%nat) as [Hi|Hi].
  - rewrite lookup_app_l by lia. by apply lookup_take_lt.
  - rewrite lookup_app_r by lia. rewrite Ht.
    destruct (decide (i < Z.to_nat off + length v)%nat) as [Hj|Hj].
    + by rewrite lookup_app_l by lia.
    + rewrite lookup_app_r by lia. rewrite lookup_drop. f_equal. lia.
Qed.

Lemma len_overwrite off v b :
  0 <= off -> off + len v <= len b -> len (overwrite off v b) = len b.
Proof.
  unfold overwrite, len. intros Hoff Hfit.
  rewrite !length_app, length_take, length_drop. lia.
Qed.

(** Reading a range that a write did not touch. *)
Lemma slice_overwrite_disjoint o n off v b :
  0 <= o -> 0 <= n -> 0 <= off -> off + len v <= len b ->
  o + n <= off \/ off + len v <= o ->
  slice o n (overwrite off v b) = slice o n b.
Proof.
  intros Ho Hn Hoff Hfit Hdis. apply list_eq. intros i.
  rewrite !lookup_slice. destruct (decide (i < Z.to_nat n)%nat); [|done].
  rewrite lookup_overwrite by done. unfold len in *.
  repeat case_decide; try done; lia.
Qed.

(** Reading back exactly the range that was written. *)
Lemma slice_overwrite_same off v b :
  0 <= off -> off + len v <= len b ->
  slice off (len v) (overwrite off v b) = v.
Proof.
  intros Hoff Hfit. apply list_eq. intros i.
  rewrite lookup_slice, lookup_overwrite by done. unfold len in *.
  rewrite Nat2Z.id.
  repeat case_decide; try lia.
  - f_equal. lia.
  - symmetry. apply lookup_ge_None. lia.
Qed.

(** The first byte of a write is the byte read at its offset. *)
Lemma lookup_overwrite_head off v x (b : bytes) :
  0 <= off -> off + len (x :: v) <= len b ->
  overwrite off (x :: v) b !! Z.to_nat off = Some x.
Proof.
  intros Hoff Hfit. rewrite lookup_overwrite by done.
  repeat case_decide; try lia.
  - by rewrite Nat.sub_diag.
  - simpl in *. lia.
Qed.

Lemma slice_one off (b : bytes) x :
  0 <= off -> b !! Z.to_nat off = Some x -> slice off 1 b = [x].
Proof.
  intros Hoff Hx. apply list_eq. intros i. rewrite lookup_slice.
  change (Z.to_nat 1) with 1%nat.
  destruct i as [|i]; simpl.
  - by rewrite Nat.add_0_r.
  - done.
Qed.

(** * Running a method: inversion of a successful run *)

Lemma bind_Ok {A B} (m : M A) (k : A -> M B) s b s' :
  bind m k s = (Ok b, s') ->
  exists a s1, m s = (Ok a, s1) /\ k a s1 = (Ok b, s').
Proof.
  unfold bind. destruct (m s) as [[a|e] s1]; [eauto | discriminate].
Qed.

Lemma ret_Ok {A} (a b : A) s s' : ret a s = (Ok b, s') -> b = a /\ s' = s.
Proof. unfold ret. intros [= -> ->]. done. Qed.

Lemma assert_Ok c e u s s' : assert c e s = (Ok u, s') -> c = true /\ s' = s.
Proof. destruct c; unfold assert, ret, fail; intros [=]; done. Qed.

Lemma add_u64_Ok a b r s s' :
  add_u64 a b s = (Ok r, s') -> r = a + b /\ a + b < 2 ^ 64 /\ s' = s.
Proof.
  unfold add_u64. destruct (Z.ltb_spec (a + b) (2 ^ 64));
    unfold ret, fail; intros [=]; done.
Qed.

Lemma sub_u64_Ok a b r s s' :
  sub_u64 a b s = (Ok r, s') -> r = a - b /\ b <= a /\ s' = s.
Proof.
  unfold sub_u64. destruct (Z.leb_spec b a);
    unfold ret, fail; intros [=]; done.
Qed.

Lemma get_count_Ok r s s' :
  get_bounty_count_field s = (Ok r, s') -> r = bounty_count s /\ s' = s.
Proof. unfold get_bounty_count_field. intros [=]; done. Qed.

Lemma set_count_Ok n u s s' :
  set_bounty_count n s = (Ok u, s') ->
  s' = mk_state n (boxes s) (payments s).
Proof. unfold set_bounty_count. intros [=]; done. Qed.

Lemma Box_length_Ok name r s s' :
  Box_length name s = (Ok r, s') ->
  s' = s /\
  r = match boxes s !! name with
      | Some b => (true, len b)
      | None => (false, 0)
      end.
Proof.
  unfold Box_length. destruct (boxes s !! name); intros [=]; done.
Qed.

Lemma Box_extract_Ok name off n v s s' :
  Box_extract name off n s = (Ok v, s') ->
  s' = s /\
  exists b, boxes s !! name = Some b /\ off + n <= len b /\ v = slice off n b.
Proof.
  unfold Box_extract. destruct (boxes s !! name) as [b|]; [|discriminate].
  destruct (Z.leb_spec (off + n) (len b)); intros [=]; subst.
  split; [done | eauto].
Qed.

Lemma Box_put_Ok name off v u s s' :
  Box_put name off v s = (Ok u, s') ->
  exists b, boxes s !! name = Some b /\ off + len v <= len b /\
            s' = set_boxes (<[name := overwrite off v b]> (boxes s)) s.
Proof.
  unfold Box_put. destruct (boxes s !! name) as [b|]; [|discriminate].
  destruct (Z.leb_spec (off + len v) (len b)); intros [=]; subst. eauto.
Qed.

Lemma set_boxes_id s : set_boxes (boxes s) s = s.
Proof. by destruct s. Qed.

Lemma Box_create_Ok name size r s s' :
  Box_create name size s = (Ok r, s') ->
  exists b, (0 <= size -> len b = size) /\
            s' = set_boxes (<[name := b]> (boxes s)) s /\
            size <= MAX_BOX_SIZE /\
            (boxes s !! name = Some b
             \/ boxes s !! name = None /\ b = bzero size).
Proof.
  unfold Box_create. destruct (Z.ltb_spec MAX_BOX_SIZE size); [discriminate|].
  destruct (boxes s !! name) as [b|] eqn:E.
  - destruct (Z.eqb_spec (len b) size); intros [=]; subst.
    exists b. split; [done|]. rewrite insert_id, set_boxes_id by done. auto.
  - intros [=]; subst. exists (bzero size). split; [apply len_bzero|]. auto.
Qed.

Lemma itxn_submit_Ok ctx p u s s' :
  itxn_submit ctx p s = (Ok u, s') ->
  ledger_accepts ctx p = true /\
  s' = mk_state (bounty_count s) (boxes s) (payments s ++ [p]).
Proof.
  unfold itxn_submit. destruct (ledger_accepts ctx p); intros [=]; done.
Qed.

Lemma fmap_M_Ok {A B} (f : A -> B) (m : M A) r s s' :
  fmap_M f m s = (Ok r, s') -> exists a, m s = (Ok a, s') /\ r = f a.
Proof.
  unfold fmap_M. intros H. apply bind_Ok in H as (a & s1 & Hm & Hr).
  apply ret_Ok in Hr as [-> ->]. eauto.
Qed.

Lemma invoke_Ok ctx c v s s' :
  invoke ctx c s = (Ok v, s') -> dispatch ctx c s = (Ok v, s').
Proof.
  unfold invoke. destruct (dispatch ctx c s) as [[a|e] s1]; intros [=].
  by subst.
Qed.

Lemma invoke_Err ctx c e s s' : invoke ctx c s = (Err e, s') -> s' = s.
Proof.
  unfold invoke. destruct (dispatch ctx c s) as [[a|e'] s1]; intros [=].
  by subst.
Qed.

(** Decompose a successful run into the facts its steps established. *)
Ltac run_inv :=
  repeat match goal with
  | H : bind _ _ _ = (Ok _, _) |- _ =>
      let a := fresh "v" in
      let s1 := fresh "s" in
      let Hm := fresh "Hm" in
      apply bind_Ok in H as (a & s1 & Hm & H); cbv beta zeta in H
  | H : ret _ _ = (Ok _, _) |- _ => apply ret_Ok in H as [? ?]; subst
  | H : assert _ _ _ = (Ok _, _) |- _ =>
      let Hc := fresh "Hc" in apply assert_Ok in H as [Hc ?]; subst
  | H : add_u64 _ _ _ = (Ok _, _) |- _ =>
      apply add_u64_Ok in H as (? & ? & ?); subst
  | H : sub_u64 _ _ _ = (Ok _, _) |- _ =>
      apply sub_u64_Ok in H as (? & ? & ?); subst
  | H : get_bounty_count_field _ = (Ok _, _) |- _ =>
      apply get_count_Ok in H as [? ?]; subst
  | H : set_bounty_count _ _ = (Ok _, _) |- _ =>
      apply set_count_Ok in H; subst
  | H : Box_length _ _ = (Ok _, _) |- _ =>
      apply Box_length_Ok in H as [? ?]; subst
  | H : Box_extract _ _ _ _ = (Ok _, _) |- _ =>
      let b := fresh "b" in
      let Hb := fresh "Hb" in
      let Hl := fresh "Hl" in
      apply Box_extract_Ok in H as (? & b & Hb & Hl & ?); subst
  | H : Box_put _ _ _ _ = (Ok _, _) |- _ =>
      let b := fresh "b" in
      let Hb := fresh "Hb" in
      let Hl := fresh "Hl" in
      apply Box_put_Ok in H as (b & Hb & Hl & ?); subst
  | H : Box_create _ _ _ = (Ok _, _) |- _ =>
      let b := fresh "b" in
      let Hl := fresh "Hl" in
      let Hmax := fresh "Hmax" in
      let Hold := fresh "Hold" in
      apply Box_create_Ok in H as (b & Hl & ? & Hmax & Hold); subst
  | H : itxn_submit _ _ _ = (Ok _, _) |- _ =>
      let Hp := fresh "Hpay" in apply itxn_submit_Ok in H as [Hp ?]; subst
  | H : fmap_M _ _ _ = (Ok _, _) |- _ =>
      let Hm := fresh "Hm" in
      apply fmap_M_Ok in H as (? & Hm & ?); subst
  | H : (let '(_, _) := match boxes ?s !! ?n with _ => _ end in _) _
        = (Ok _, _) |- _ =>
      let E := fresh "Hbox" in destruct (boxes s !! n) eqn:E
  | H : boxes (set_boxes _ _) !! _ = _ |- _ => cbn [boxes set_boxes] in H
  | H : boxes (mk_state _ _ _) !! _ = _ |- _ => cbn [boxes] in H
  | H : <[?n := _]> _ !! ?n = _ |- _ => rewrite lookup_insert_eq in H
  | H : Some _ = Some _ |- _ => injection H as H; subst
  | H : RId _ = RId _ |- _ => injection H as H; subst
  | H : RBool _ = RBool _ |- _ => injection H as H; subst
  | H : RInfo _ = RInfo _ |- _ => injection H as H; subst
  | H : RCount _ = RCount _ |- _ => injection H as H; subst
  | H : Some _ = None |- _ => discriminate H
  | H : None = Some _ |- _ => discriminate H
  | H : true = true |- _ => clear H
  | H : false = true |- _ => discriminate H
  | H1 : ?x = Some _, H2 : ?x = Some _ |- _ => rewrite H1 in H2
  | H1 : ?x = Some _, H2 : ?x = None |- _ => congruence
  end.

(** Record, for every write that fitted, that it kept the box length. *)
Ltac len_facts :=
  repeat match goal with
  | H : ?o + len ?v <= len ?b |- _ =>
      lazymatch goal with
      | _ : len (overwrite o v b) = len b |- _ => fail
      | _ => assert (len (overwrite o v b) = len b)
               by (apply len_overwrite; lia)
      end
  end.

(** * The status byte

    Every method stores the status with [op.Box.put(box_name, 112,
    op.itob(STATUS_...))]: eight bytes at offsets 112 to 119, of which the
    one at 112 is the most significant byte of the status word.  Every
    method reads the status as [op.btoi(op.Box.extract(box_name, 112, 1))].
    (The PyTeal variant in the same repository, [algoease_contract_v6.py],
    stores [Extract(Itob(status), Int(7), Int(1))]: "Itob produces 8 bytes,
    extract only the last byte".) *)

Lemma itob_head z : 0 <= z < 2 ^ 56 -> itob z = x00 :: be_bytes 7 z.
Proof.
  intros Hz. unfold itob. cbn [be_bytes]. f_equal.
  change (256 ^ Z.of_nat 7) with (2 ^ 56). by rewrite Z.div_small.
Qed.

Lemma status_write_byte k (b : bytes) :
  0 <= k < 2 ^ 56 -> 112 + len (itob k) <= len b ->
  overwrite 112 (itob k) b !! 112%nat = Some x00.
Proof.
  intros Hk Hfit. rewrite itob_head in * by done.
  by apply (lookup_overwrite_head 112).
Qed.

Lemma stored_status_zero (b : bytes) :
  b !! 112%nat = Some x00 -> stored_status b = STATUS_OPEN.
Proof.
  intros Hb. unfold stored_status. by rewrite (slice_one 112 b x00).
Qed.

Lemma status_byte_zero_insert name b s bx :
  status_byte_zero s -> b !! 112%nat = Some x00 ->
  bx = <[name := b]> (boxes s) ->
  forall name' b', bx !! name' = Some b' -> b' !! 112%nat = Some x00.
Proof.
  intros Hs Hb -> name' b'. rewrite lookup_insert.
  case_decide; [by intros [= <-] | apply Hs].
Qed.

(** A method that succeeds leaves byte 112 of every box at zero. *)
Lemma dispatch_status_byte_zero ctx c v s s' :
  dispatch ctx c s = (Ok v, s') -> status_byte_zero s -> status_byte_zero s'.
Proof.
  intros H Hs.
  destruct c; cbn [dispatch] in H;
    unfold create_bounty, accept_bounty, submit_bounty, approve_bounty,
      reject_bounty, claim_bounty, refund_bounty, auto_refund,
      get_bounty_info, get_bounty_count in H;
    cbv zeta in H; run_inv; try exact Hs;
    unfold status_byte_zero; cbn [boxes set_boxes];
    rewrite ?insert_insert_eq;
    eapply status_byte_zero_insert; try exact Hs; try reflexivity.
  - (* create_bounty: the description is written from offset 113 *)
    len_facts. rewrite lookup_overwrite by lia.
    change (Z.to_nat 113) with 113%nat. rewrite decide_True by lia.
    apply status_write_byte; [done | lia].
  - apply status_write_byte; [done | lia].
  - apply status_write_byte; [done | lia].
  - apply status_write_byte; [done | lia].
  - apply status_write_byte; [done | lia].
  - apply status_write_byte; [done | lia].
  - apply status_write_byte; [done | lia].
  - apply status_write_byte; [done | lia].
Qed.

(** * Sequences of calls *)

Lemma run_app tr1 tr2 s : run (tr1 ++ tr2) s = run tr2 (run tr1 s).
Proof.
  revert s. induction tr1 as [|[ctx c] tr1 IH]; intros s; [done|].
  cbn [run app]. apply IH.
Qed.

Lemma invoke_status_byte_zero ctx c s :
  status_byte_zero s -> status_byte_zero (snd (invoke ctx c s)).
Proof.
  intros Hs. destruct (invoke ctx c s) as [[v|e] s'] eqn:E; cbn [snd].
  - apply invoke_Ok in E. by eapply dispatch_status_byte_zero.
  - apply invoke_Err in E. by subst.
Qed.

Lemma run_status_byte_zero tr s :
  status_byte_zero s -> status_byte_zero (run tr s).
Proof.
  revert s. induction tr as [|[ctx c] tr IH]; intros s Hs; [done|].
  cbn [run]. apply IH. by apply invoke_status_byte_zero.
Qed.

Lemma init_status_byte_zero : status_byte_zero init.
Proof. intros name b. unfold init. cbn [boxes]. by rewrite lookup_empty. Qed.

(** From genesis, every stored status reads OPEN. *)
Lemma reachable_status_open tr name b :
  boxes (run tr init) !! name = Some b -> stored_status b = STATUS_OPEN.
Proof.
  intros Hb. apply stored_status_zero.
  by eapply (run_status_byte_zero tr init init_status_byte_zero).
Qed.

(** * Running a method forwards *)

Lemma bind_Box_length_Some {B} name b (k : bool * Z -> M B) s :
  boxes s !! name = Some b ->
  bind (Box_length name) k s = k (true, len b) s.
Proof. intros Hb. unfold bind, Box_length. by rewrite Hb. Qed.

Lemma bind_Box_length_None {B} name (k : bool * Z -> M B) s :
  boxes s !! name = None ->
  bind (Box_length name) k s = k (false, 0) s.
Proof. intros Hb. unfold bind, Box_length. by rewrite Hb. Qed.

Lemma bind_Box_extract {B} name off n b (k : bytes -> M B) s :
  boxes s !! name = Some b -> off + n <= len b ->
  bind (Box_extract name off n) k s = k (slice off n b) s.
Proof.
  intros Hb Hfit. unfold bind, Box_extract. rewrite Hb.
  by rewrite (proj2 (Z.leb_le _ _) Hfit).
Qed.

Lemma bind_Box_put {B} name off v b (k : unit -> M B) s :
  boxes s !! name = Some b -> off + len v <= len b ->
  bind (Box_put name off v) k s
  = k tt (set_boxes (<[name := overwrite off v b]> (boxes s)) s).
Proof.
  intros Hb Hfit. unfold bind, Box_put. rewrite Hb.
  by rewrite (proj2 (Z.leb_le _ _) Hfit).
Qed.

Lemma bind_assert_true {B} c e (k : unit -> M B) s :
  c = true -> bind (assert c e) k s = k tt s.
Proof. by intros ->. Qed.

Lemma bind_assert_false {B} c e (k : unit -> M B) s :
  c = false -> bind (assert c e) k s = (Err e, s).
Proof. by intros ->. Qed.

Lemma bind_sub_u64 {B} a b (k : Z -> M B) s :
  b <= a -> bind (sub_u64 a b) k s = k (a - b) s.
Proof.
  intros Hle. unfold bind, sub_u64. by rewrite (proj2 (Z.leb_le _ _) Hle).
Qed.

Lemma bind_itxn_submit_rejected {B} ctx p (k : unit -> M B) s :
  ledger_accepts ctx p = false ->
  bind (itxn_submit ctx p) k s = (Err TransferFailed, s).
Proof. intros Hp. unfold bind, itxn_submit. by rewrite Hp. Qed.

Lemma bind_itxn_submit_accepted {B} ctx p (k : unit -> M B) s :
  ledger_accepts ctx p = true ->
  bind (itxn_submit ctx p) k s
  = k tt (mk_state (bounty_count s) (boxes s) (payments s ++ [p])).
Proof. intros Hp. unfold bind, itxn_submit. by rewrite Hp. Qed.

Lemma lookup_set_boxes name b bx s :
  boxes (set_boxes (<[name := b]> bx) s) !! name = Some b.
Proof. cbn [boxes set_boxes]. apply lookup_insert_eq. Qed.

Lemma fmap_M_run {A B} (f : A -> B) (m : M A) s :
  fmap_M f m s
  = match m s with
    | (Ok a, s') => (Ok (f a), s')
    | (Err e, s') => (Err e, s')
    end.
Proof. unfold fmap_M, bind, ret. by destruct (m s) as [[a|e] s']. Qed.

Ltac unfold_methods :=
  unfold invoke; cbn [dispatch]; rewrite ?fmap_M_run;
  unfold create_bounty, accept_bounty, submit_bounty, approve_bounty,
    reject_bounty, claim_bounty, refund_bounty, auto_refund,
    get_bounty_info, get_bounty_count;
  cbv zeta.

(** One step of a method whose outcome the context determines. *)
Ltac run_step :=
  first
    [ erewrite bind_Box_length_Some
        by first [eassumption | apply lookup_set_boxes
                 | cbn [boxes set_boxes]; apply lookup_insert_eq]
    | rewrite bind_Box_length_None by assumption
    | erewrite bind_Box_extract
        by first [eassumption | apply lookup_set_boxes
                 | cbn [boxes set_boxes]; apply lookup_insert_eq | lia]
    | erewrite bind_Box_put
        by first [eassumption | apply lookup_set_boxes
                 | cbn [boxes set_boxes]; apply lookup_insert_eq | lia]
    | rewrite bind_assert_true by first [assumption | reflexivity]
    | rewrite bind_assert_false by first [assumption | reflexivity]
    | rewrite bind_sub_u64 by lia ];
  cbv beta iota zeta.

(** ** Missing records *)

Lemma missing_record ctx c id s :
  (target c = Some id \/ c = GetInfo id) ->
  boxes s !! box_name_of id = None ->
  invoke ctx c s = (Err NotFound, s).
Proof.
  intros Hc Hb.
  destruct Hc as [Hc| ->]; [destruct c; try discriminate Hc;
                            injection Hc as ->|];
    unfold_methods; run_step; reflexivity.
Qed.

(** ** A write outside the box *)

Lemma bind_Box_put_outside {B} name off v b (k : unit -> M B) s :
  boxes s !! name = Some b -> len b < off + len v ->
  bind (Box_put name off v) k s = (Err BoxFault, s).
Proof.
  intros Hb Hout. unfold bind, Box_put. rewrite Hb.
  by rewrite (proj2 (Z.leb_gt _ _) Hout).
Qed.

(** Case analysis on the steps the context does not determine. *)
Ltac run_cases :=
  repeat match goal with
  | |- context [bind (assert ?c _) _ _] =>
      destruct c eqn:?;
      [ rewrite bind_assert_true by reflexivity
      | rewrite bind_assert_false by reflexivity ];
      cbv beta iota zeta
  | Hb : boxes ?s !! ?n = Some ?b
    |- context [bind (Box_put ?n ?o ?v) _ ?s] =>
      destruct (Z.leb_spec (o + len v) (len b));
      [ erewrite bind_Box_put by eassumption
      | erewrite bind_Box_put_outside by eassumption ];
      cbv beta iota zeta
  | |- context [bind (itxn_submit ?ctx ?p) _ _] =>
      destruct (ledger_accepts ctx p) eqn:?;
      [ rewrite bind_itxn_submit_accepted by assumption
      | rewrite bind_itxn_submit_rejected by assumption ];
      cbv beta iota zeta
  end;
  unfold ret.

(** ** The time gates *)

Lemma non_terminal_checks st :
  terminal st = false ->
  negb (st =? STATUS_CLAIMED) = true /\
  negb (st =? STATUS_REFUNDED) = true /\
  negb (st =? STATUS_REJECTED) = true.
Proof.
  unfold terminal. rewrite !orb_false_iff. intros [[-> ->] ->]. done.
Qed.

Lemma accept_at_deadline ctx id s b :
  boxes s !! box_name_of id = Some b -> 113 <= len b ->
  stored_status b = STATUS_OPEN ->
  stored_deadline b <= Global_latest_timestamp ctx ->
  invoke ctx (Accept id) s = (Err DeadlineExpired, s).
Proof.
  unfold stored_status, stored_deadline. intros Hb Hlen Hst Hnow.
  assert (Hopen : (btoi (slice 112 1 b) =? STATUS_OPEN) = true)
    by (apply Z.eqb_eq; done).
  assert (Hgate : (Global_latest_timestamp ctx <? btoi (slice 104 8 b))
                  = false) by (apply Z.ltb_ge; done).
  unfold_methods. repeat run_step. reflexivity.
Qed.

Lemma refund_time_gate ctx id s b :
  boxes s !! box_name_of id = Some b -> 113 <= len b ->
  terminal (stored_status b) = false ->
  invoke ctx (Refund id) s = (Err DeadlineExpired, s)
  <-> stored_deadline b <= Global_latest_timestamp ctx.
Proof.
  unfold stored_status, stored_deadline. intros Hb Hlen Hst.
  apply non_terminal_checks in Hst as (H1 & H2 & H3).
  unfold_methods. repeat run_step.
  destruct (Z.ltb_spec (Global_latest_timestamp ctx) (btoi (slice 104 8 b)))
    as [Hlt|Hge].
  - rewrite bind_assert_true by reflexivity.
    run_cases; split; (discriminate || lia).
  - rewrite bind_assert_false by reflexivity. done.
Qed.

Lemma auto_refund_time_gate ctx id s b :
  boxes s !! box_name_of id = Some b -> 113 <= len b ->
  terminal (stored_status b) = false ->
  invoke ctx (AutoRefund id) s = (Err DeadlineNotExpired, s)
  <-> Global_latest_timestamp ctx < stored_deadline b.
Proof.
  unfold stored_status, stored_deadline. intros Hb Hlen Hst.
  apply non_terminal_checks in Hst as (H1 & H2 & H3).
  unfold_methods. repeat run_step.
  destruct (Z.leb_spec (btoi (slice 104 8 b)) (Global_latest_timestamp ctx))
    as [Hle|Hgt].
  - rewrite bind_assert_true by reflexivity.
    run_cases; split; (discriminate || lia).
  - rewrite bind_assert_false by reflexivity. done.
Qed.

(** ** Reading back a new record *)

Lemma len_nonneg b : 0 <= len b.
Proof. unfold len. lia. Qed.

Lemma len_account a : wf_account a -> len a = 32.
Proof. unfold wf_account, len. lia. Qed.

Lemma slice_overwrite_written off n v b :
  n = len v -> 0 <= off -> off + len v <= len b ->
  slice off n (overwrite off v b) = v.
Proof. intros ->. apply slice_overwrite_same. Qed.

(** Read a field through the later writes down to the write that set it. *)
Ltac read_field :=
  repeat (rewrite slice_overwrite_disjoint by lia);
  apply slice_overwrite_written; lia.

(** ** X5: [create_bounty] fails, and stores nothing, when the encoded task
    description has fewer than seven bytes (an ARC4 string of fewer than five
    characters, the empty string included): the eight status bytes written
    at offset 112 do not fit a box of 113 bytes plus the description. *)
Lemma create_bounty_short_description ctx payment verifier deadline task s :
  len (arc4_bytes task) < 7 ->
  exists e, invoke ctx (Create payment verifier deadline task) s = (Err e, s).
Proof.
  intros Hshort.
  destruct (invoke ctx (Create payment verifier deadline task) s)
    as [[v|e] s'] eqn:E.
  - exfalso. apply invoke_Ok in E. cbn [dispatch] in E.
    unfold create_bounty in E. cbv zeta in E. run_inv.
    pose proof (len_itob STATUS_OPEN).
    pose proof (len_nonneg (arc4_bytes task)).
    len_facts. lia.
  - apply invoke_Err in E. subst. eauto.
Qed.

(** ** The bounty counter *)

Lemma invoke_counter ctx c s :
  match invoke ctx c s with
  | (Ok (RId i), s') =>
      (exists p v d t, c = Create p v d t) /\
      i = bounty_count s /\ bounty_count s' = bounty_count s + 1
  | (_, s') => bounty_count s' = bounty_count s
  end.
Proof.
  destruct (invoke ctx c s) as [[r|e] s'] eqn:E.
  - apply invoke_Ok in E.
    destruct c; cbn [dispatch] in E;
      unfold create_bounty, accept_bounty, submit_bounty, approve_bounty,
        reject_bounty, claim_bounty, refund_bounty, auto_refund,
        get_bounty_info, get_bounty_count in E;
      cbv zeta in E; run_inv; cbn [bounty_count set_boxes]; eauto 10.
  - apply invoke_Err in E. by subst.
Qed.

Lemma issued_ids_from tr s :
  bounty_count s <= bounty_count (run tr s) /\
  issued_ids tr s
  = seqZ (bounty_count s) (bounty_count (run tr s) - bounty_count s).
Proof.
  revert s. induction tr as [|[ctx c] tr IH]; intros s.
  - cbn [run issued_ids]. rewrite Z.sub_diag. done.
  - cbn [run issued_ids]. pose proof (invoke_counter ctx c s) as Hc.
    destruct (invoke ctx c s) as [[r|e] s']; cbn [snd].
    + destruct (IH s') as [Hle Hids].
      destruct r; try (rewrite Hc in *; done).
      destruct Hc as (_ & -> & Hnext). split; [lia|].
      rewrite Hids, Hnext.
      rewrite (seqZ_cons (bounty_count s)) by lia. f_equal. f_equal; lia.
    + destruct (IH s') as [Hle Hids]. rewrite Hc in *. done.
Qed.

(** ** The status read after a status write *)

Lemma status_after_write k (b : bytes) :
  0 <= k < 2 ^ 56 -> 112 + len (itob k) <= len b ->
  slice 112 1 (overwrite 112 (itob k) b) = [x00].
Proof.
  intros Hk Hfit. apply (slice_one 112); [done|].
  by apply status_write_byte.
Qed.

(** ** What [accept_bounty] does to a record

    In any state: the freelancer becomes the caller, the status still reads
    OPEN, the first seven bytes of the task description become the low seven
    bytes of the status word, and the other fields and the length stay. *)

Lemma description_after_status_write k (b : bytes) :
  0 <= k < 2 ^ 56 -> 112 + len (itob k) <= len b ->
  stored_task_description (overwrite 112 (itob k) b)
  = be_bytes 7 k ++ drop 7 (stored_task_description b).
Proof.
  intros Hk Hfit. pose proof (len_itob k) as Hlen.
  unfold stored_task_description.
  rewrite len_overwrite by lia. rewrite itob_head in * by done.
  apply list_eq. intros i.
  rewrite lookup_slice, lookup_overwrite by lia.
  rewrite lookup_app, length_be_bytes, lookup_drop, lookup_slice.
  unfold len in *. cbn [length] in *. rewrite length_be_bytes in *.
  change (Z.to_nat 113) with 113%nat. change (Z.to_nat 112) with 112%nat.
  destruct (decide (i < 7)%nat) as [Hi|Hi].
  - rewrite decide_True by lia. rewrite decide_False by lia.
    rewrite decide_True by lia.
    replace (113 + i - 112)%nat with (S i) by lia. cbn [lookup list_lookup].
    destruct (be_bytes 7 k !! i) eqn:E; [done|].
    apply lookup_ge_None in E. rewrite length_be_bytes in E. lia.
  - rewrite (proj2 (lookup_ge_None (be_bytes 7 k) i))
      by (rewrite length_be_bytes; lia).
    replace (7 + (i - 7))%nat with i by lia.
    repeat case_decide; try done; lia.
Qed.

(** ** X20: what [accept_bounty] does to a record, in any state, for a
    32-byte caller: the freelancer becomes the caller, who is not the zero
    address; the status still reads OPEN; the first seven bytes of the task
    description become 00 00 00 00 00 00 01; client, verifier, amount,
    deadline and length are unchanged. *)
Lemma accept_bounty_effect ctx id s v s' b :
  wf_account (Txn_sender ctx) ->
  boxes s !! box_name_of id = Some b ->
  invoke ctx (Accept id) s = (Ok v, s') ->
  exists b',
    boxes s' !! box_name_of id = Some b'
    /\ stored_freelancer b' = Txn_sender ctx
    /\ Txn_sender ctx <> bzero 32
    /\ stored_status b' = STATUS_OPEN
    /\ stored_task_description b'
       = be_bytes 7 STATUS_ACCEPTED ++ drop 7 (stored_task_description b)
    /\ stored_client b' = stored_client b
    /\ stored_verifier b' = stored_verifier b
    /\ stored_amount b' = stored_amount b
    /\ stored_deadline b' = stored_deadline b
    /\ len b' = len b.
Proof.
  intros Hsender Hb H. apply len_account in Hsender.
  apply invoke_Ok in H. cbn [dispatch] in H.
  unfold accept_bounty in H. cbv zeta in H. run_inv.
  pose proof (len_itob STATUS_ACCEPTED). len_facts.
  eexists. split; [apply lookup_set_boxes|].
  unfold stored_freelancer, stored_client, stored_verifier, stored_amount,
    stored_deadline.
  repeat split.
  - read_field.
  - intros Heq. rewrite Heq in *. unfold bytes_eqb in *.
    by rewrite bool_decide_eq_true_2 in *.
  - apply stored_status_zero, status_write_byte; [done | lia].
  - rewrite description_after_status_write by (done || lia).
    f_equal. f_equal. unfold stored_task_description.
    rewrite len_overwrite by lia.
    apply slice_overwrite_disjoint; lia.
  - by rewrite !slice_overwrite_disjoint by lia.
  - by rewrite !slice_overwrite_disjoint by lia.
  - by rewrite !slice_overwrite_disjoint by lia.
  - by rewrite !slice_overwrite_disjoint by lia.
  - lia.
Qed.

(** * The claims on refusals, the counter and the deadline *)

(** ** C8: a call that takes a bounty identifier for which no record exists
    fails with [NotFound], whoever the caller is and whatever the time: the
    existence check comes before every status and authorization check. *)
Theorem missing_record_is_not_found ctx c id s :
  (target c = Some id \/ c = GetInfo id) ->
  boxes s !! box_name_of id = None ->
  invoke ctx c s = (Err NotFound, s).
Proof. apply missing_record. Qed.

Lemma missing_record_is_not_found_witness :
  invoke (at_time alice 20) (Accept 7) (run [create_hello] init)
  = (Err NotFound, run [create_hello] init)
  /\ invoke (at_time alice 20) (GetInfo 7) init = (Err NotFound, init).
Proof.
  split.
  - apply (missing_record_is_not_found (at_time alice 20) (Accept 7) 7).
    + left. reflexivity.
    + vm_compute. reflexivity.
  - apply (missing_record_is_not_found (at_time alice 20) (GetInfo 7) 7).
    + right. reflexivity.
    + vm_compute. reflexivity.
Defined.

(** ** C9: the counter starts at 0; a successful [create_bounty] returns the
    counter's value before the call and adds one to it; every other call,
    and every failed call, leaves the counter unchanged; [get_bounty_count]
    never fails and returns the counter; so the identifiers issued along a
    sequence of calls from genesis are 0, 1, ..., n-1 in order, where n is
    the final counter. *)
Theorem counter_issues_consecutive_ids :
  bounty_count init = 0
  /\ (forall ctx p v d t s id s',
         invoke ctx (Create p v d t) s = (Ok (RId id), s') ->
         id = bounty_count s /\ bounty_count s' = bounty_count s + 1)
  /\ (forall ctx c s,
         (forall p v d t, c <> Create p v d t) ->
         bounty_count (snd (invoke ctx c s)) = bounty_count s)
  /\ (forall ctx s, invoke ctx GetCount s = (Ok (RCount (bounty_count s)), s))
  /\ (forall tr,
         issued_ids tr init = seqZ 0 (bounty_count (run tr init))
         /\ NoDup (issued_ids tr init)).
Proof.
  split; [done|]. split; [|split; [|split]].
  - intros ctx p v d t s id s' H.
    pose proof (invoke_counter ctx (Create p v d t) s) as Hc.
    rewrite H in Hc. tauto.
  - intros ctx c s Hno.
    pose proof (invoke_counter ctx c s) as Hc.
    destruct (invoke ctx c s) as [[[]|e] s']; cbn [fst snd] in *; try done.
    destruct Hc as [(p & v & d & t & ->) _]. by destruct (Hno p v d t).
  - done.
  - intros tr. destruct (issued_ids_from tr init) as [_ Hids].
    change (bounty_count init) with 0 in Hids. rewrite Z.sub_0_r in Hids.
    split; [done|]. rewrite Hids. apply NoDup_seqZ.
Qed.

Lemma counter_issues_consecutive_ids_witness :
  issued_ids [create_hello; accept_by_bob; create_hello; refund_at 20;
              create_hello] init = [0; 1; 2]
  /\ bounty_count (snd (invoke (at_time alice 10) (snd create_hello) init)) = 1.
Proof.
  destruct counter_issues_consecutive_ids as (_ & Hcreate & _ & _ & Hids).
  split.
  - destruct (Hids [create_hello; accept_by_bob; create_hello; refund_at 20;
                    create_hello]) as [-> _].
    vm_compute. reflexivity.
  - destruct (Hcreate (at_time alice 10) (mk_gtxn escrow alice 1000) carol 110
                hello init 0 (run [create_hello] init)) as [_ Hnext].
    + vm_compute. reflexivity.
    + vm_compute. reflexivity.
Defined.

(** ** C10: at a time equal to the stored deadline the record counts as
    expired: [accept_bounty] on an OPEN record and [refund_bounty] on a
    non-terminal record fail with [DeadlineExpired], and [auto_refund] is not
    stopped by its time check.  At every time, on a non-terminal record,
    [refund_bounty] is stopped by its time check exactly when the deadline is
    at or before the current time, and [auto_refund] exactly when the current
    time is before the deadline: never both, never neither. *)
Theorem deadline_boundary ctx id s b :
  boxes s !! box_name_of id = Some b ->
  113 <= len b ->
  let now := Global_latest_timestamp ctx in
  (now = stored_deadline b -> stored_status b = STATUS_OPEN ->
   invoke ctx (Accept id) s = (Err DeadlineExpired, s))
  /\ (now = stored_deadline b -> terminal (stored_status b) = false ->
      invoke ctx (Refund id) s = (Err DeadlineExpired, s)
      /\ invoke ctx (AutoRefund id) s <> (Err DeadlineNotExpired, s))
  /\ (terminal (stored_status b) = false ->
      (invoke ctx (Refund id) s = (Err DeadlineExpired, s)
       <-> stored_deadline b <= now)
      /\ (invoke ctx (AutoRefund id) s = (Err DeadlineNotExpired, s)
          <-> now < stored_deadline b)
      /\ (invoke ctx (Refund id) s = (Err DeadlineExpired, s)
          <-> invoke ctx (AutoRefund id) s <> (Err DeadlineNotExpired, s))).
Proof.
  intros Hb Hlen now. split; [|split].
  - intros Hnow Hopen. apply (accept_at_deadline ctx id s b); try done.
    fold now. lia.
  - intros Hnow Hst.
    rewrite (refund_time_gate ctx id s b), (auto_refund_time_gate ctx id s b)
      by done.
    fold now. lia.
  - intros Hst.
    rewrite (refund_time_gate ctx id s b), (auto_refund_time_gate ctx id s b)
      by done.
    fold now. lia.
Qed.

Lemma deadline_boundary_witness :
  invoke (at_time bob 110) (Accept 0) (run [create_hello] init)
  = (Err DeadlineExpired, run [create_hello] init)
  /\ invoke (at_time alice 110) (Refund 0) (run [create_hello] init)
     = (Err DeadlineExpired, run [create_hello] init)
  /\ invoke (at_time alice 110) (AutoRefund 0) (run [create_hello] init)
     <> (Err DeadlineNotExpired, run [create_hello] init).
Proof.
  assert (Hb : exists b, boxes (run [create_hello] init) !! box_name_of 0
                         = Some b
                         /\ 113 <= len b
                         /\ stored_deadline b = 110
                         /\ stored_status b = STATUS_OPEN
                         /\ terminal (stored_status b) = false).
  { eexists. split; [vm_compute; reflexivity|]. vm_compute.
    repeat split; congruence. }
  destruct Hb as (b & Hb & Hlen & Hd & Hopen & Hterm).
  split; [|split].
  - apply (proj1 (deadline_boundary (at_time bob 110) 0 _ b Hb Hlen));
      [rewrite Hd; reflexivity | exact Hopen].
  - apply (proj1 (proj2 (deadline_boundary (at_time alice 110) 0 _ b Hb Hlen)));
      [rewrite Hd; reflexivity | exact Hterm].
  - apply (proj1 (proj2 (deadline_boundary (at_time alice 110) 0 _ b Hb Hlen)));
      [rewrite Hd; reflexivity | exact Hterm].
Defined.

(** * Further properties of the contract *)

(** ** Box names *)

Lemma itob_inj a b : uint64 a -> uint64 b -> itob a = itob b -> a = b.
Proof.
  intros Ha Hb Heq. rewrite <- (btoi_itob a), <- (btoi_itob b) by done.
  by rewrite Heq.
Qed.

Lemma box_name_of_inj i j :
  uint64 i -> uint64 j -> box_name_of i = box_name_of j -> i = j.
Proof.
  intros Hi Hj Heq. unfold box_name_of, concat in Heq.
  apply app_inv_head in Heq. by apply itob_inj.
Qed.

(** ** What a call leaves alone *)

Lemma dispatch_other_boxes ctx c v s s' name :
  dispatch ctx c s = (Ok v, s') ->
  touched c s <> Some name ->
  boxes s' !! name = boxes s !! name.
Proof.
  intros H Hname.
  assert (Hne : forall n, touched c s = Some n -> n <> name)
    by (intros n Hn ->; done).
  destruct c; cbn [dispatch] in H; cbn [touched target fmap option_fmap
                                         option_map] in Hne;
    unfold create_bounty, accept_bounty, submit_bounty, approve_bounty,
      reject_bounty, claim_bounty, refund_bounty, auto_refund,
      get_bounty_info, get_bounty_count in H;
    cbv zeta in H; run_inv; cbn [boxes set_boxes]; try done;
    rewrite !lookup_insert_ne by (by apply Hne); done.
Qed.

Lemma invoke_other_boxes ctx c s name :
  touched c s <> Some name ->
  boxes (snd (invoke ctx c s)) !! name = boxes s !! name.
Proof.
  intros Hname. destruct (invoke ctx c s) as [[v|e] s'] eqn:E; cbn [snd].
  - apply invoke_Ok in E. by eapply dispatch_other_boxes.
  - apply invoke_Err in E. by subst.
Qed.

(** A box, once there, stays and keeps its length. *)
Lemma dispatch_keeps_box ctx c v s s' name b :
  dispatch ctx c s = (Ok v, s') ->
  boxes s !! name = Some b ->
  exists b', boxes s' !! name = Some b' /\ len b' = len b.
Proof.
  intros H Hb.
  destruct (decide (touched c s = Some name)) as [Ht|Ht].
  - destruct c; cbn [touched target fmap option_fmap option_map] in Ht;
      try discriminate Ht; injection Ht as <-;
      cbn [dispatch] in H;
      unfold create_bounty, accept_bounty, submit_bounty, approve_bounty,
        reject_bounty, claim_bounty, refund_bounty, auto_refund in H;
      cbv zeta in H; run_inv; cbn [boxes set_boxes] in *;
      rewrite ?insert_insert_eq; rewrite lookup_insert_eq;
      eexists; (split; [reflexivity|]); len_facts; try lia.
    destruct Hold as [Hold|[Hold _]]; [|congruence].
    rewrite Hb in Hold. injection Hold as ->. lia.
  - exists b. split; [|done]. rewrite <- Hb. by eapply dispatch_other_boxes.
Qed.

(** ** Reading a record *)

Lemma bind_Box_extract_outside {B} name off n b (k : bytes -> M B) s :
  boxes s !! name = Some b -> len b < off + n ->
  bind (Box_extract name off n) k s = (Err BoxFault, s).
Proof.
  intros Hb Hout. unfold bind, Box_extract. rewrite Hb.
  by rewrite (proj2 (Z.leb_gt _ _) Hout).
Qed.

(** Case analysis on whether each read fits the box. *)
Ltac read_cases :=
  repeat match goal with
  | Hb : boxes ?s !! ?n = Some ?b
    |- context [bind (Box_extract ?n ?o ?k) _ ?s] =>
      destruct (Z.leb_spec (o + k) (len b));
      [ erewrite bind_Box_extract by eassumption
      | erewrite bind_Box_extract_outside by eassumption ];
      cbv beta iota zeta
  end.

Lemma get_bounty_info_run id s :
  get_bounty_info id s
  = (match boxes s !! box_name_of id with
     | None => Err NotFound
     | Some b =>
         if 113 <=? len b
         then Ok (mk_info (stored_client b) (stored_freelancer b)
                    (stored_verifier b) (stored_amount b) (stored_deadline b)
                    (stored_status b)
                    (mk_arc4_String (stored_task_description b)))
         else Err BoxFault
     end, s).
Proof.
  unfold get_bounty_info. cbv zeta.
  destruct (boxes s !! box_name_of id) as [b|] eqn:Hb.
  - destruct (Z.leb_spec 113 (len b)) as [Hlen|Hlen].
    + repeat run_step. reflexivity.
    + run_step. run_step. read_cases; try reflexivity. lia.
  - run_step. run_step. reflexivity.
Qed.

(** ** Refusals, in the order of the checks *)

Lemma bytes_eqb_false a b : a <> b -> bytes_eqb a b = false.
Proof. intros H. unfold bytes_eqb. by apply bool_decide_eq_false_2. Qed.

Lemma bytes_eqb_true a : bytes_eqb a a = true.
Proof. unfold bytes_eqb. by apply bool_decide_eq_true_2. Qed.

(** Decide an [assert] from the arithmetic facts of the context. *)
Ltac assert_step :=
  match goal with
  | |- context [bind (assert _ _) _ _] =>
      first
        [ rewrite bind_assert_true by first [assumption | reflexivity | lia]
        | rewrite bind_assert_false by first [assumption | reflexivity | lia]
        ]
  end;
  cbv beta iota zeta.

Ltac run_auto := repeat first [run_step | assert_step].

Ltac unfold_status :=
  unfold stored_status, stored_deadline, stored_amount, stored_client,
    stored_verifier, stored_freelancer, terminal, STATUS_OPEN,
    STATUS_ACCEPTED, STATUS_SUBMITTED, STATUS_APPROVED, STATUS_CLAIMED,
    STATUS_REJECTED, STATUS_REFUNDED in *.

Lemma wrong_status ctx id s b :
  boxes s !! box_name_of id = Some b ->
  113 <= len b ->
  (stored_status b <> STATUS_OPEN ->
   invoke ctx (Accept id) s = (Err InvalidState, s))
  /\ (stored_status b <> STATUS_ACCEPTED ->
      invoke ctx (Submit id) s = (Err InvalidState, s))
  /\ (stored_status b <> STATUS_SUBMITTED ->
      invoke ctx (Approve id) s = (Err InvalidState, s))
  /\ (stored_status b <> STATUS_SUBMITTED ->
      stored_status b <> STATUS_ACCEPTED ->
      invoke ctx (Reject id) s = (Err InvalidState, s))
  /\ (stored_status b <> STATUS_APPROVED ->
      invoke ctx (Claim id) s = (Err InvalidState, s))
  /\ (terminal (stored_status b) = true ->
      invoke ctx (Refund id) s = (Err InvalidState, s)
      /\ invoke ctx (AutoRefund id) s = (Err InvalidState, s)).
Proof.
  intros Hb Hlen. unfold_status.
  repeat split; intros; unfold_methods; unfold_status; run_auto;
    try reflexivity; run_cases; first [reflexivity | exfalso; lia].
Qed.

(** ** X7: on an OPEN record, [accept_bounty] refuses, in this order: a
    call at or after the deadline ([DeadlineExpired]), the zero address as
    caller ([InvalidSender]), the client as caller ([SelfDealing]).  The
    record is unchanged. *)
Lemma accept_refusals ctx id s b :
  boxes s !! box_name_of id = Some b ->
  113 <= len b ->
  stored_status b = STATUS_OPEN ->
  (stored_deadline b <= Global_latest_timestamp ctx ->
   invoke ctx (Accept id) s = (Err DeadlineExpired, s))
  /\ (Global_latest_timestamp ctx < stored_deadline b ->
      Txn_sender ctx = bzero 32 ->
      invoke ctx (Accept id) s = (Err InvalidSender, s))
  /\ (Global_latest_timestamp ctx < stored_deadline b ->
      Txn_sender ctx <> bzero 32 ->
      Txn_sender ctx = stored_client b ->
      invoke ctx (Accept id) s = (Err SelfDealing, s)).
Proof.
  intros Hb Hlen Hst. split; [|split].
  - intros Hnow. by apply (accept_at_deadline ctx id s b).
  - intros Hnow Hzero. unfold_status.
    assert (Hz : negb (bytes_eqb (Txn_sender ctx) (bzero 32)) = false)
      by (rewrite Hzero, bytes_eqb_true; done).
    unfold_methods. unfold_status. run_auto. reflexivity.
  - intros Hnow Hzero Hclient. unfold_status.
    assert (Hz : negb (bytes_eqb (Txn_sender ctx) (bzero 32)) = true)
      by (rewrite bytes_eqb_false; done).
    assert (Hc : negb (bytes_eqb (Txn_sender ctx) (slice 0 32 b)) = false)
      by (rewrite <- Hclient, bytes_eqb_true; done).
    unfold_methods. unfold_status. run_auto. reflexivity.
Qed.

(** ** X9: with the status in order, a caller without the role is refused
    with [Unauthorized]: [submit_bounty] and [claim_bounty] are for the
    stored freelancer, [approve_bounty], [reject_bounty] and (before the
    deadline) [refund_bounty] for the stored client or verifier. *)
Lemma outsiders_refused ctx id s b :
  boxes s !! box_name_of id = Some b ->
  113 <= len b ->
  let who := Txn_sender ctx in
  (stored_status b = STATUS_ACCEPTED -> who <> stored_freelancer b ->
   invoke ctx (Submit id) s = (Err Unauthorized, s))
  /\ (stored_status b = STATUS_SUBMITTED ->
      who <> stored_client b -> who <> stored_verifier b ->
      invoke ctx (Approve id) s = (Err Unauthorized, s))
  /\ (stored_status b = STATUS_SUBMITTED \/ stored_status b = STATUS_ACCEPTED ->
      who <> stored_client b -> who <> stored_verifier b ->
      invoke ctx (Reject id) s = (Err Unauthorized, s))
  /\ (stored_status b = STATUS_APPROVED -> who <> stored_freelancer b ->
      invoke ctx (Claim id) s = (Err Unauthorized, s))
  /\ (terminal (stored_status b) = false ->
      Global_latest_timestamp ctx < stored_deadline b ->
      who <> stored_client b -> who <> stored_verifier b ->
      invoke ctx (Refund id) s = (Err Unauthorized, s)).
Proof.
  intros Hb Hlen who. subst who. unfold_status.
  repeat split; intros;
    repeat match goal with
           | H : Txn_sender ctx <> _ |- _ => apply bytes_eqb_false in H
           end;
    try (assert (Hor : bytes_eqb (Txn_sender ctx) (slice 0 32 b)
                       || bytes_eqb (Txn_sender ctx) (slice 64 32 b) = false)
          by (apply orb_false_iff; done));
    unfold_methods; unfold_status; run_auto; reflexivity.
Qed.

(** ** Creating a record *)

(** ** X4: [create_bounty] checks the funding first and the deadline next:
    a wrong group size or index, a payment not addressed to the application,
    a payment from another sender or a zero amount give [InvalidFunding];
    with the funding in order, a deadline at or before the current time
    gives [DeadlineNotFuture].  Nothing is stored and the counter stays. *)
Lemma create_refusals ctx p v d t s :
  (funding_ok ctx p = false ->
   invoke ctx (Create p v d t) s = (Err InvalidFunding, s))
  /\ (funding_ok ctx p = true -> d <= Global_latest_timestamp ctx ->
      invoke ctx (Create p v d t) s = (Err DeadlineNotFuture, s)).
Proof.
  unfold funding_ok. split.
  - intros Hf. unfold_methods. run_cases; try reflexivity.
    all: exfalso; repeat match goal with
                         | H : _ = true |- _ => rewrite H in Hf
                         end; discriminate Hf.
  - intros Hf Hd. rewrite !andb_true_iff in Hf.
    destruct Hf as [[[[H1 H2] H3] H4] H5].
    apply Z.ltb_ge in Hd.
    unfold_methods. run_auto. reflexivity.
Qed.

(** The length of a box after a chain of writes that fitted. *)
Ltac solve_len :=
  first [ lia | rewrite len_overwrite; [solve_len | lia | solve_len] ].

(** ** What a successful call pays *)

(** ** X10: what a successful call pays.  [reject_bounty], [refund_bounty]
    and [auto_refund] issue exactly one inner payment, of the stored amount,
    to the stored client, with fee 0; [claim_bounty] one of the stored amount
    to the stored freelancer; every other call issues none.  The amount paid
    is positive. *)
Lemma paid_on_success ctx c v s s' :
  invoke ctx c s = (Ok v, s') ->
  match c with
  | Reject id | Refund id | AutoRefund id =>
      exists b, boxes s !! box_name_of id = Some b
                /\ 0 < stored_amount b
                /\ payments s'
                   = payments s
                     ++ [mk_payment (stored_client b) (stored_amount b) 0]
  | Claim id =>
      exists b, boxes s !! box_name_of id = Some b
                /\ 0 < stored_amount b
                /\ payments s'
                   = payments s
                     ++ [mk_payment (stored_freelancer b) (stored_amount b) 0]
  | _ => payments s' = payments s
  end.
Proof.
  intros H. apply invoke_Ok in H.
  destruct c; cbn [dispatch] in H;
    unfold create_bounty, accept_bounty, submit_bounty, approve_bounty,
      reject_bounty, claim_bounty, refund_bounty, auto_refund,
      get_bounty_info, get_bounty_count in H;
    cbv zeta in H; run_inv; cbn [payments set_boxes]; try reflexivity;
    eexists; (split; [reflexivity|]); unfold_status;
    (split; [lia | reflexivity]).
Qed.

(** ** The status after a call that changed a record *)

(** ** X11: after any successful call that names a record, in any state,
    the status of that record reads OPEN: the eight status bytes written at
    offset 112 put zero at the offset the status is read from. *)
Lemma changed_record_reads_open ctx c id v s s' :
  target c = Some id ->
  invoke ctx c s = (Ok v, s') ->
  exists b', boxes s' !! box_name_of id = Some b'
             /\ stored_status b' = STATUS_OPEN.
Proof.
  intros Ht H. apply invoke_Ok in H.
  destruct c; try discriminate Ht; injection Ht as ->;
    cbn [dispatch] in H;
    unfold accept_bounty, submit_bounty, approve_bounty, reject_bounty,
      claim_bounty, refund_bounty, auto_refund in H;
    cbv zeta in H; run_inv; cbn [boxes set_boxes];
    rewrite ?insert_insert_eq; rewrite lookup_insert_eq;
    eexists; (split; [reflexivity|]);
    len_facts; apply stored_status_zero, status_write_byte; (done || lia).
Qed.

(** ** From genesis: the calls that need a status other than OPEN *)

Lemma box_at_least_113 (b : bytes) : b !! 112%nat = Some x00 -> 113 <= len b.
Proof.
  intros Hb. apply lookup_lt_Some in Hb. unfold len. lia.
Qed.

(** ** X13: from genesis, [submit_bounty], [approve_bounty], [reject_bounty]
    and [claim_bounty] never succeed: on every bounty they fail with
    [NotFound] or with [InvalidState], since each needs a status other than
    OPEN.  No sequence of calls pays a freelancer. *)
Lemma needs_later_status tr ctx id c :
  c = Submit id \/ c = Approve id \/ c = Reject id \/ c = Claim id ->
  invoke ctx c (run tr init) = (Err NotFound, run tr init)
  \/ invoke ctx c (run tr init) = (Err InvalidState, run tr init).
Proof.
  intros Hc.
  destruct (boxes (run tr init) !! box_name_of id) as [b|] eqn:Hb.
  - right.
    pose proof (run_status_byte_zero tr init init_status_byte_zero _ _ Hb)
      as Hzero.
    pose proof (box_at_least_113 b Hzero) as Hlen.
    pose proof (stored_status_zero b Hzero) as Hst.
    destruct (wrong_status ctx id (run tr init) b Hb Hlen)
      as (_ & Hsub & Happ & Hrej & Hclaim & _).
    destruct Hc as [-> | [-> | [-> | ->]]];
      [apply Hsub | apply Happ | apply Hrej | apply Hclaim];
      rewrite Hst; done.
  - left. apply (missing_record ctx c id); [|done].
    destruct Hc as [-> | [-> | [-> | ->]]]; left; reflexivity.
Qed.

(** ** Identifiers and boxes *)

Lemma create_counter ctx p v d t r s s' :
  dispatch ctx (Create p v d t) s = (Ok r, s') ->
  r = RId (bounty_count s)
  /\ bounty_count s' = bounty_count s + 1
  /\ bounty_count s + 1 < 2 ^ 64
  /\ is_Some (boxes s' !! box_name_of (bounty_count s)).
Proof.
  intros H. cbn [dispatch] in H. unfold create_bounty in H. cbv zeta in H.
  run_inv. cbn [bounty_count boxes set_boxes].
  rewrite lookup_insert_eq. eauto.
Qed.

Lemma other_calls_counter ctx c r s s' :
  dispatch ctx c s = (Ok r, s') ->
  (forall p v d t, c <> Create p v d t) ->
  bounty_count s' = bounty_count s
  /\ forall name, touched c s = Some name -> is_Some (boxes s !! name).
Proof.
  intros H Hc.
  destruct c; try (by destruct (Hc payment verifier deadline task_description));
    cbn [dispatch] in H;
    unfold accept_bounty, submit_bounty, approve_bounty, reject_bounty,
      claim_bounty, refund_bounty, auto_refund, get_bounty_info,
      get_bounty_count in H;
    cbv zeta in H; run_inv; cbn [bounty_count set_boxes touched target fmap
                                   option_fmap option_map];
    (split; [reflexivity|]); intros name Hn; simpl in Hn; simplify_eq;
    eauto.
Qed.

Lemma dispatch_consistent ctx c r s s' :
  dispatch ctx c s = (Ok r, s') -> consistent s -> consistent s'.
Proof.
  intros H [Hcount Hdom].
  assert (Hcreate : (exists p v d t, c = Create p v d t)
                    \/ forall p v d t, c <> Create p v d t)
    by (destruct c; [left; eauto 10 | right; intros; discriminate ..]).
  destruct Hcreate as [(p & v & d & t & ->)|Hother].
  - destruct (create_counter _ _ _ _ _ _ _ _ H) as (_ & Hnext & Hlt & Hnew).
    split; [lia|]. intros name. rewrite Hnext.
    destruct (decide (name = box_name_of (bounty_count s))) as [->|Hne].
    + split; [|done]. intros _. exists (bounty_count s). split; [lia|done].
    + rewrite (dispatch_other_boxes _ _ _ _ _ name H)
        by (cbn [touched]; congruence).
      rewrite Hdom. split; intros (id & Hid & ->).
      * exists id. split; [lia|done].
      * exists id. split; [|done].
        destruct (decide (id = bounty_count s)) as [->|]; [done|lia].
  - destruct (other_calls_counter _ _ _ _ _ H Hother) as [Hsame Htouched].
    split; [lia|]. intros name. rewrite Hsame, <- Hdom.
    destruct (decide (touched c s = Some name)) as [Ht|Ht].
    + split; intros _; [by apply Htouched|].
      destruct (Htouched name Ht) as [b Hb].
      destruct (dispatch_keeps_box _ _ _ _ _ _ _ H Hb) as (b' & -> & _).
      done.
    + by rewrite (dispatch_other_boxes _ _ _ _ _ name H).
Qed.

Lemma invoke_consistent ctx c s :
  consistent s -> consistent (snd (invoke ctx c s)).
Proof.
  intros Hs. destruct (invoke ctx c s) as [[v|e] s'] eqn:E; cbn [snd].
  - apply invoke_Ok in E. by eapply dispatch_consistent.
  - apply invoke_Err in E. by subst.
Qed.

Lemma init_consistent : consistent init.
Proof.
  split; [done|]. intros name. unfold init. cbn [boxes bounty_count].
  rewrite lookup_empty. split; [by intros []|]. intros (id & Hid & _). lia.
Qed.

Lemma consistent_lookup s id :
  consistent s -> uint64 id ->
  is_Some (boxes s !! box_name_of id) <-> id < bounty_count s.
Proof.
  intros [Hcount Hdom] Hid. rewrite Hdom. split.
  - intros (id' & Hid' & Heq). apply box_name_of_inj in Heq; [lia|done|].
    unfold uint64. lia.
  - intros Hlt. exists id. unfold uint64 in Hid. split; [lia|done].
Qed.

(** ** The terms of a bounty are permanent *)

Lemma dispatch_keeps_terms ctx c r s s' name b :
  dispatch ctx c s = (Ok r, s') ->
  consistent s ->
  wf_account (Txn_sender ctx) ->
  boxes s !! name = Some b ->
  exists b', boxes s' !! name = Some b' /\ same_terms b b'.
Proof.
  intros H Hs Hsender Hb. apply len_account in Hsender.
  destruct (decide (touched c s = Some name)) as [Ht|Ht].
  - destruct c; simpl in Ht; simplify_eq.
    + (* create_bounty writes the box of a new identifier *)
      exfalso.
      assert (Hu : uint64 (bounty_count s)) by apply Hs.
      pose proof (proj1 (consistent_lookup s _ Hs Hu) (mk_is_Some _ _ Hb)).
      lia.
    + cbn [dispatch] in H. unfold accept_bounty in H. cbv zeta in H.
      run_inv. cbn [boxes set_boxes]. rewrite ?insert_insert_eq.
      rewrite lookup_insert_eq. eexists. split; [reflexivity|].
      len_facts. unfold same_terms. unfold_status.
      rewrite !slice_overwrite_disjoint by lia. repeat split; lia.
    + cbn [dispatch] in H. unfold submit_bounty in H. cbv zeta in H.
      run_inv. cbn [boxes set_boxes]. rewrite lookup_insert_eq.
      eexists. split; [reflexivity|].
      pose proof (len_itob 2). len_facts. unfold same_terms. unfold_status.
      rewrite !slice_overwrite_disjoint by lia. repeat split; lia.
    + cbn [dispatch] in H. unfold approve_bounty in H. cbv zeta in H.
      run_inv. cbn [boxes set_boxes]. rewrite lookup_insert_eq.
      eexists. split; [reflexivity|].
      pose proof (len_itob 3). len_facts. unfold same_terms. unfold_status.
      rewrite !slice_overwrite_disjoint by lia. repeat split; lia.
    + cbn [dispatch] in H. unfold reject_bounty in H. cbv zeta in H.
      run_inv. cbn [boxes set_boxes]. rewrite lookup_insert_eq.
      eexists. split; [reflexivity|].
      pose proof (len_itob 5). len_facts. unfold same_terms. unfold_status.
      rewrite !slice_overwrite_disjoint by lia. repeat split; lia.
    + cbn [dispatch] in H. unfold claim_bounty in H. cbv zeta in H.
      run_inv. cbn [boxes set_boxes]. rewrite lookup_insert_eq.
      eexists. split; [reflexivity|].
      pose proof (len_itob 4). len_facts. unfold same_terms. unfold_status.
      rewrite !slice_overwrite_disjoint by lia. repeat split; lia.
    + cbn [dispatch] in H. unfold refund_bounty in H. cbv zeta in H.
      run_inv. cbn [boxes set_boxes]. rewrite lookup_insert_eq.
      eexists. split; [reflexivity|].
      pose proof (len_itob 6). len_facts. unfold same_terms. unfold_status.
      rewrite !slice_overwrite_disjoint by lia. repeat split; lia.
    + cbn [dispatch] in H. unfold auto_refund in H. cbv zeta in H.
      run_inv. cbn [boxes set_boxes]. rewrite lookup_insert_eq.
      eexists. split; [reflexivity|].
      pose proof (len_itob 6). len_facts. unfold same_terms. unfold_status.
      rewrite !slice_overwrite_disjoint by lia. repeat split; lia.
  - exists b. split; [|by repeat split].
    rewrite <- Hb. by eapply dispatch_other_boxes.
Qed.

(** ** Amounts *)

Lemma dispatch_amounts_positive ctx c r s s' :
  dispatch ctx c s = (Ok r, s') ->
  consistent s ->
  well_typed (ctx, c) ->
  amounts_positive s -> amounts_positive s'.
Proof.
  intros H Hs [Hsender Hargs] Hpos name b' Hb'. cbn [fst snd] in *.
  destruct (boxes s !! name) as [b|] eqn:Hb.
  - destruct (dispatch_keeps_terms _ _ _ _ _ name b H Hs Hsender Hb)
      as (b'' & Hb'' & (_ & _ & _ & Hamount & _)).
    rewrite Hb' in Hb''. injection Hb'' as <-. rewrite Hamount. by eapply Hpos.
  - destruct (decide (touched c s = Some name)) as [Ht|Ht];
      [|rewrite (dispatch_other_boxes _ _ _ _ _ name H Ht) in Hb'; congruence].
    assert (Hcreate : (exists p v d t, c = Create p v d t)
                      \/ forall p v d t, c <> Create p v d t)
      by (destruct c; [left; eauto 10 | right; intros; discriminate ..]).
    destruct Hcreate as [(p & v & d & t & ->)|Hother].
    + destruct Hargs as (Hverifier & Hamount & Hdeadline).
      apply len_account in Hsender, Hverifier.
      simpl in Ht. injection Ht as <-.
      cbn [dispatch] in H. unfold create_bounty in H. cbv zeta in H.
      run_inv.
      pose proof (len_itob (payment_amount p)).
      pose proof (len_itob d).
      pose proof (len_itob STATUS_OPEN).
      pose proof (len_bzero 32 ltac:(lia)).
      pose proof (len_nonneg (arc4_bytes t)).
      len_facts. unfold stored_amount.
      match goal with
      | |- 0 < btoi ?x =>
          replace x with (itob (payment_amount p)) by (symmetry; read_field)
      end.
      rewrite btoi_itob by done. lia.
    + destruct (other_calls_counter _ _ _ _ _ H Hother) as [_ Htouched].
      destruct (Htouched name Ht) as [b Hb'']. congruence.
Qed.

Lemma run_amounts_positive tr s :
  consistent s -> Forall well_typed tr ->
  amounts_positive s -> amounts_positive (run tr s).
Proof.
  revert s. induction tr as [|[ctx c] tr IH]; intros s Hs Htr Hpos; [done|].
  apply Forall_cons in Htr as [Hx Htr]. cbn [run].
  apply IH; [by apply invoke_consistent | done |].
  destruct (invoke ctx c s) as [[v|e] s'] eqn:E; cbn [snd].
  - apply invoke_Ok in E. by eapply dispatch_amounts_positive.
  - apply invoke_Err in E. by subst.
Qed.

(** ** Accepting an accepted bounty *)

(** ** X18: an accepted bounty can be accepted again.  In any state, after a
    successful [accept_bounty], any other caller that is not the zero address
    and not the client succeeds with [accept_bounty] on the same bounty
    before the deadline, and becomes the stored freelancer. *)
Lemma accept_again ctx ctx' id v s s' b :
  boxes s !! box_name_of id = Some b ->
  invoke ctx (Accept id) s = (Ok v, s') ->
  wf_account (Txn_sender ctx) ->
  wf_account (Txn_sender ctx') ->
  Txn_sender ctx' <> bzero 32 ->
  Txn_sender ctx' <> stored_client b ->
  Global_latest_timestamp ctx' < stored_deadline b ->
  exists s'' b'',
    invoke ctx' (Accept id) s' = (Ok (RBool true), s'')
    /\ boxes s'' !! box_name_of id = Some b''
    /\ stored_freelancer b'' = Txn_sender ctx'.
Proof.
  intros Hb H Hsender Hsender' Hzero Hclient Hnow.
  apply len_account in Hsender, Hsender'.
  apply bytes_eqb_false in Hzero, Hclient. apply Z.ltb_lt in Hnow.
  unfold stored_client, stored_deadline in *.
  apply invoke_Ok in H. cbn [dispatch] in H. unfold accept_bounty in H.
  cbv zeta in H. run_inv.
  match goal with
  | Hbox : boxes s !! box_name_of id = Some ?x |- _ => rename x into b
  end.
  pose proof (len_itob STATUS_ACCEPTED). len_facts.
  set (b1 := overwrite 112 (itob STATUS_ACCEPTED)
               (overwrite 32 (Txn_sender ctx) b)) in *.
  assert (Hlen1 : len (overwrite 32 (Txn_sender ctx') b1) = len b)
    by (subst b1; solve_len).
  assert (Hst : slice 112 1 b1 = [x00])
    by (subst b1; apply status_after_write; (done || lia)).
  assert (Hd : slice 104 8 b1 = slice 104 8 b)
    by (subst b1; rewrite !slice_overwrite_disjoint by lia; done).
  assert (Hcl : slice 0 32 b1 = slice 0 32 b)
    by (subst b1; rewrite !slice_overwrite_disjoint by lia; done).
  eexists _, _. split; [|split].
  - unfold_methods. repeat run_step. rewrite Hst, Hd, Hcl.
    rewrite Hzero, Hclient, Hnow.
    rewrite !bind_assert_true by reflexivity.
    repeat (erewrite bind_Box_put
              by first [apply lookup_set_boxes | lia]).
    reflexivity.
  - apply lookup_set_boxes.
  - unfold stored_freelancer.
    rewrite slice_overwrite_disjoint by lia.
    apply slice_overwrite_written; lia.
Qed.

(** ** The one-byte status of the PyTeal variant *)

(** ** X22: the PyTeal variant's [status_to_bytes] yields one byte, and
    [Btoi] of it is the status modulo 256: every status constant reads back
    as itself. *)
Lemma status_to_bytes_reads_back status :
  exists bs, AlgoEaseV6.status_to_bytes status = Some bs
             /\ len bs = 1
             /\ btoi bs = status mod 256.
Proof.
  unfold AlgoEaseV6.status_to_bytes, AlgoEaseV6.Extract.
  rewrite len_itob. cbn [Z.leb Z.add Z.compare Pos.compare Pos.compare_cont
                           Pos.add Pos.succ].
  eexists. split; [reflexivity|]. unfold itob. cbn [be_bytes].
  unfold slice. change (Z.to_nat 1) with 1%nat.
  change (Z.to_nat 7) with 7%nat. cbn [take drop].
  split; [reflexivity|]. unfold btoi. cbn [fold_left].
  rewrite Z_of_byte_of_Z. change (256 ^ Z.of_nat 0) with 1.
  rewrite Z.div_1_r. lia.
Qed.

(** * Further properties: statements and instances *)

(** ** X1: the box names of two different bounty identifiers differ: the key
    ["bounty_" ++ itob(bounty_id)] is injective on UInt64. *)
Theorem box_names_are_distinct i j :
  uint64 i -> uint64 j -> i <> j -> box_name_of i <> box_name_of j.
Proof. intros Hi Hj Hne Heq. by apply Hne, box_name_of_inj. Qed.

Lemma box_names_are_distinct_witness : box_name_of 0 <> box_name_of (2 ^ 64 - 1).
Proof.
  apply (box_names_are_distinct 0 (2 ^ 64 - 1)); unfold uint64; lia.
Defined.

(** ** X2: a call changes no record but the one it names: after any call on
    bounty [i], and after any [create_bounty] that issues an identifier other
    than [j], the box of bounty [j] and what [get_bounty_info] reports for it
    are as before. *)
Theorem other_bounties_untouched ctx c s j :
  uint64 j ->
  (forall i, target c = Some i -> uint64 i /\ i <> j) ->
  (forall p v d t, c = Create p v d t ->
                   uint64 (bounty_count s) /\ bounty_count s <> j) ->
  boxes (snd (invoke ctx c s)) !! box_name_of j = boxes s !! box_name_of j
  /\ info_of (snd (invoke ctx c s)) j = info_of s j.
Proof.
  intros Hj Htarget Hcreate.
  assert (Hsame : boxes (snd (invoke ctx c s)) !! box_name_of j
                  = boxes s !! box_name_of j).
  { apply invoke_other_boxes. intros Ht.
    destruct c; simpl in Ht; try discriminate Ht.
    - destruct (Hcreate _ _ _ _ eq_refl) as [Hu Hne].
      apply Hne, box_name_of_inj; [done | done | congruence].
    - destruct (Htarget _ eq_refl) as [Hu Hne].
      apply Hne, box_name_of_inj; [done | done | congruence].
    - destruct (Htarget _ eq_refl) as [Hu Hne].
      apply Hne, box_name_of_inj; [done | done | congruence].
    - destruct (Htarget _ eq_refl) as [Hu Hne].
      apply Hne, box_name_of_inj; [done | done | congruence].
    - destruct (Htarget _ eq_refl) as [Hu Hne].
      apply Hne, box_name_of_inj; [done | done | congruence].
    - destruct (Htarget _ eq_refl) as [Hu Hne].
      apply Hne, box_name_of_inj; [done | done | congruence].
    - destruct (Htarget _ eq_refl) as [Hu Hne].
      apply Hne, box_name_of_inj; [done | done | congruence].
    - destruct (Htarget _ eq_refl) as [Hu Hne].
      apply Hne, box_name_of_inj; [done | done | congruence]. }
  split; [done|]. unfold info_of. rewrite !get_bounty_info_run. cbn [fst].
  by rewrite Hsame.
Qed.

Lemma other_bounties_untouched_witness :
  let s := run [create_hello; create_by_dave] init in
  info_of (snd (invoke (at_time alice 20) (Refund 0) s)) 1 = info_of s 1.
Proof.
  apply (other_bounties_untouched (at_time alice 20) (Refund 0)).
  - unfold uint64. lia.
  - intros i [= <-]. unfold uint64. lia.
  - intros p v d t Hc. discriminate Hc.
Defined.

(** ** X3: no call removes or resizes a box: a box that exists before a call
    exists after it, with the same length. *)
Theorem records_are_never_removed ctx c s name b :
  boxes s !! name = Some b ->
  exists b', boxes (snd (invoke ctx c s)) !! name = Some b' /\ len b' = len b.
Proof.
  intros Hb. destruct (invoke ctx c s) as [[v|e] s'] eqn:E; cbn [snd].
  - apply invoke_Ok in E. by eapply dispatch_keeps_box.
  - apply invoke_Err in E. subst. eauto.
Qed.

Lemma records_are_never_removed_witness :
  exists b', boxes (snd (invoke (at_time alice 20) (Refund 0)
                           (state_with_status x02))) !! box_name_of 0
             = Some b'
             /\ len b' = len (record_with_status x02).
Proof.
  apply (records_are_never_removed (at_time alice 20) (Refund 0)
           (state_with_status x02) (box_name_of 0) (record_with_status x02)).
  vm_compute. reflexivity.
Defined.

Lemma create_refusals_witness :
  invoke (at_time alice 10) (Create (mk_gtxn escrow alice 0) carol 110 hello)
    init = (Err InvalidFunding, init)
  /\ invoke (at_time alice 10) (Create (mk_gtxn escrow bob 1000) carol 5 hello)
       init = (Err InvalidFunding, init)
  /\ invoke (at_time alice 110)
       (Create (mk_gtxn escrow alice 1000) carol 110 hello) init
     = (Err DeadlineNotFuture, init).
Proof.
  split; [|split].
  - apply (proj1 (create_refusals (at_time alice 10)
                    (mk_gtxn escrow alice 0) carol 110 hello init)).
    vm_compute. reflexivity.
  - apply (proj1 (create_refusals (at_time alice 10)
                    (mk_gtxn escrow bob 1000) carol 5 hello init)).
    vm_compute. reflexivity.
  - apply (proj2 (create_refusals (at_time alice 110)
                    (mk_gtxn escrow alice 1000) carol 110 hello init)).
    + vm_compute. reflexivity.
    + cbn. lia.
Defined.

Lemma create_bounty_short_description_witness :
  exists e,
    invoke (at_time alice 10)
      (Create (mk_gtxn escrow alice 1000) carol 110 (arc4_String_of [])) init
    = (Err e, init).
Proof.
  apply (create_bounty_short_description (at_time alice 10)
           (mk_gtxn escrow alice 1000) carol 110 (arc4_String_of []) init).
  vm_compute. reflexivity.
Defined.

Lemma accept_refusals_witness :
  invoke (at_time alice 20) (Accept 0) (state_with_status x00)
  = (Err SelfDealing, state_with_status x00)
  /\ invoke (at_time (bzero 32) 20) (Accept 0) (state_with_status x00)
     = (Err InvalidSender, state_with_status x00)
  /\ invoke (at_time (bzero 32) 500) (Accept 0) (state_with_status x00)
     = (Err DeadlineExpired, state_with_status x00).
Proof.
  assert (Hb : boxes (state_with_status x00) !! box_name_of 0
               = Some (record_with_status x00)) by (vm_compute; reflexivity).
  assert (Hlen : 113 <= len (record_with_status x00))
    by (vm_compute; discriminate).
  assert (Hst : stored_status (record_with_status x00) = STATUS_OPEN)
    by (vm_compute; reflexivity).
  split; [|split].
  - apply (proj2 (proj2 (accept_refusals (at_time alice 20) 0 _ _
                           Hb Hlen Hst))).
    + vm_compute. reflexivity.
    + intros H. vm_compute in H. discriminate H.
    + vm_compute. reflexivity.
  - apply (proj1 (proj2 (accept_refusals (at_time (bzero 32) 20) 0 _ _
                           Hb Hlen Hst))).
    + vm_compute. reflexivity.
    + reflexivity.
  - apply (proj1 (accept_refusals (at_time (bzero 32) 500) 0 _ _
                    Hb Hlen Hst)).
    vm_compute. discriminate.
Defined.

(** ** X8: a call on a record whose status is not the one the call needs
    fails with [InvalidState], whoever the caller and whatever the time: the
    status is checked before the deadline and before the caller.
    [accept_bounty] needs OPEN, [submit_bounty] ACCEPTED, [approve_bounty]
    SUBMITTED, [reject_bounty] SUBMITTED or ACCEPTED, [claim_bounty]
    APPROVED; [refund_bounty] and [auto_refund] refuse CLAIMED, REJECTED and
    REFUNDED. *)
Theorem wrong_status_is_invalid_state ctx id s b :
  boxes s !! box_name_of id = Some b ->
  113 <= len b ->
  (stored_status b <> STATUS_OPEN ->
   invoke ctx (Accept id) s = (Err InvalidState, s))
  /\ (stored_status b <> STATUS_ACCEPTED ->
      invoke ctx (Submit id) s = (Err InvalidState, s))
  /\ (stored_status b <> STATUS_SUBMITTED ->
      invoke ctx (Approve id) s = (Err InvalidState, s))
  /\ (stored_status b <> STATUS_SUBMITTED ->
      stored_status b <> STATUS_ACCEPTED ->
      invoke ctx (Reject id) s = (Err InvalidState, s))
  /\ (stored_status b <> STATUS_APPROVED ->
      invoke ctx (Claim id) s = (Err InvalidState, s))
  /\ (terminal (stored_status b) = true ->
      invoke ctx (Refund id) s = (Err InvalidState, s)
      /\ invoke ctx (AutoRefund id) s = (Err InvalidState, s)).
Proof. apply wrong_status. Qed.

Lemma wrong_status_is_invalid_state_witness :
  invoke (at_time bob 20) (Claim 0) (state_with_status x02)
  = (Err InvalidState, state_with_status x02)
  /\ invoke (at_time alice 20) (Refund 0) (state_with_status x05)
     = (Err InvalidState, state_with_status x05).
Proof.
  split.
  - destruct (wrong_status_is_invalid_state (at_time bob 20) 0
                (state_with_status x02) (record_with_status x02))
      as (_ & _ & _ & _ & Hclaim & _).
    + vm_compute. reflexivity.
    + vm_compute. discriminate.
    + apply Hclaim. vm_compute. discriminate.
  - destruct (wrong_status_is_invalid_state (at_time alice 20) 0
                (state_with_status x05) (record_with_status x05))
      as (_ & _ & _ & _ & _ & Hrefund).
    + vm_compute. reflexivity.
    + vm_compute. discriminate.
    + apply Hrefund. vm_compute. reflexivity.
Defined.

Lemma outsiders_refused_witness :
  invoke (at_time bob 20) (Approve 0) (state_with_status x02)
  = (Err Unauthorized, state_with_status x02)
  /\ invoke (at_time alice 20) (Claim 0) (state_with_status x03)
     = (Err Unauthorized, state_with_status x03).
Proof.
  assert (Hne : forall a b : bytes, bytes_eqb a b = false -> a <> b).
  { intros a b H ->. by rewrite bytes_eqb_true in H. }
  split.
  - apply (proj1 (proj2 (outsiders_refused (at_time bob 20) 0
                           (state_with_status x02) (record_with_status x02)
                           ltac:(vm_compute; reflexivity)
                           ltac:(vm_compute; discriminate)))).
    + vm_compute. reflexivity.
    + apply Hne. vm_compute. reflexivity.
    + apply Hne. vm_compute. reflexivity.
  - apply (proj1 (proj2 (proj2 (proj2
             (outsiders_refused (at_time alice 20) 0
                (state_with_status x03) (record_with_status x03)
                ltac:(vm_compute; reflexivity)
                ltac:(vm_compute; discriminate)))))).
    + vm_compute. reflexivity.
    + apply Hne. vm_compute. reflexivity.
Defined.

Lemma paid_on_success_witness :
  exists b,
    boxes (state_with_status x03) !! box_name_of 0 = Some b
    /\ 0 < stored_amount b
    /\ payments (snd (invoke (at_time bob 20) (Claim 0)
                        (state_with_status x03)))
       = payments (state_with_status x03)
         ++ [mk_payment (stored_freelancer b) (stored_amount b) 0].
Proof.
  apply (paid_on_success (at_time bob 20) (Claim 0) (RBool true)
           (state_with_status x03)).
  vm_compute. reflexivity.
Defined.

Lemma changed_record_reads_open_witness :
  exists b',
    boxes (snd (invoke (at_time alice 20) (Approve 0)
                  (state_with_status x02))) !! box_name_of 0 = Some b'
    /\ stored_status b' = STATUS_OPEN.
Proof.
  apply (changed_record_reads_open (at_time alice 20) (Approve 0) 0
           (RBool true) (state_with_status x02)).
  - reflexivity.
  - vm_compute. reflexivity.
Defined.

(** ** X12: from genesis, whatever calls were made, [get_bounty_info]
    reports status OPEN for every bounty it finds. *)
Theorem every_bounty_reads_open tr id info :
  info_of (run tr init) id = Some info -> info_status info = STATUS_OPEN.
Proof.
  unfold info_of. rewrite get_bounty_info_run. cbn [fst].
  destruct (boxes (run tr init) !! box_name_of id) as [b|] eqn:Hb;
    [|discriminate].
  destruct (113 <=? len b); [|discriminate].
  intros [= <-]. cbn [info_status]. by eapply reachable_status_open.
Qed.

Lemma every_bounty_reads_open_witness :
  exists info,
    info_of (run [create_hello; accept_by_bob; refund_at 20] init) 0 = Some info
    /\ info_status info = STATUS_OPEN.
Proof.
  eexists. split.
  - vm_compute. reflexivity.
  - apply (every_bounty_reads_open [create_hello; accept_by_bob; refund_at 20]
             0).
    vm_compute. reflexivity.
Defined.

Lemma needs_later_status_witness :
  let s := run [create_hello; accept_by_bob] init in
  invoke (at_time bob 12) (Submit 0) s = (Err NotFound, s)
  \/ invoke (at_time bob 12) (Submit 0) s = (Err InvalidState, s).
Proof.
  apply (needs_later_status [create_hello; accept_by_bob]
           (at_time bob 12) 0 (Submit 0)).
  left. reflexivity.
Defined.

(** ** X17: from genesis, along well-typed calls, the amount stored in every
    record is positive. *)
Theorem stored_amounts_are_positive tr name b :
  Forall well_typed tr ->
  boxes (run tr init) !! name = Some b -> 0 < stored_amount b.
Proof.
  intros Htr Hb.
  eapply (run_amounts_positive tr init init_consistent Htr); [|exact Hb].
  intros name' b'. unfold init. cbn [boxes]. by rewrite lookup_empty.
Qed.

Lemma stored_amounts_are_positive_witness :
  exists b,
    boxes (run [create_hello; accept_by_bob] init) !! box_name_of 0 = Some b
    /\ 0 < stored_amount b.
Proof.
  eexists. split.
  - vm_compute. reflexivity.
  - eapply (stored_amounts_are_positive [create_hello; accept_by_bob]
              (box_name_of 0)).
    + repeat constructor; unfold uint64; cbn; lia.
    + vm_compute. reflexivity.
Defined.

Lemma accept_again_witness :
  exists s'' b'',
    invoke (at_time dave 12) (Accept 0)
      (snd (invoke (at_time bob 11) (Accept 0) (state_with_status x00)))
    = (Ok (RBool true), s'')
    /\ boxes s'' !! box_name_of 0 = Some b''
    /\ stored_freelancer b'' = dave.
Proof.
  apply (accept_again (at_time bob 11) (at_time dave 12)
           0 (RBool true) (state_with_status x00) _
           (record_with_status x00)).
  - vm_compute. reflexivity.
  - vm_compute. reflexivity.
  - reflexivity.
  - reflexivity.
  - intros H. vm_compute in H. discriminate H.
  - intros H. vm_compute in H. discriminate H.
  - vm_compute. reflexivity.
Defined.

Lemma accept_bounty_effect_witness :
  exists b',
    boxes (snd (invoke (at_time bob 11) (Accept 0) (state_with_status x00)))
      !! box_name_of 0 = Some b'
    /\ stored_freelancer b' = bob
    /\ stored_status b' = STATUS_OPEN
    /\ stored_task_description b'
       = be_bytes 7 STATUS_ACCEPTED
         ++ drop 7 (stored_task_description (record_with_status x00)).
Proof.
  destruct (accept_bounty_effect (at_time bob 11) 0
              (state_with_status x00) (RBool true)
              (snd (invoke (at_time bob 11) (Accept 0)
                      (state_with_status x00)))
              (record_with_status x00))
    as (b' & Hb' & Hf & _ & Hst & Hdesc & _).
  - reflexivity.
  - vm_compute. reflexivity.
  - vm_compute. reflexivity.
  - exists b'. repeat split; assumption.
Defined.


(** * The contract on the released library *)

(** ** The library the source assumes gives back the contract above *)

Lemma assumed_Box_length {B} name (k : Z * Z -> M B) s :
  bind (op_Box_length assumed name) k s
  = bind (Box_length name) (fun box => k (flag (fst box), snd box)) s.
Proof.
  cbn [op_Box_length assumed]. unfold bind, Box_length, ret.
  by destruct (boxes s !! name).
Qed.

Ltac same_method :=
  cbv zeta; rewrite assumed_Box_length;
  match goal with
  | |- context [bind (Box_length ?n) _ ?s] =>
      let Hb := fresh "Hb" in
      destruct (boxes s !! n) eqn:Hb;
      [ rewrite !(bind_Box_length_Some _ _ _ _ Hb)
      | rewrite !(bind_Box_length_None _ _ _ Hb) ]
  end;
  reflexivity.

Lemma assumed_dispatch ctx c s :
  OverLibrary.dispatch assumed ctx c s = dispatch ctx c s.
Proof.
  destruct c; cbn [OverLibrary.dispatch dispatch]; rewrite !fmap_M_run.
  - reflexivity.
  - unfold OverLibrary.accept_bounty, accept_bounty. by same_method.
  - unfold OverLibrary.submit_bounty, submit_bounty. by same_method.
  - unfold OverLibrary.approve_bounty, approve_bounty. by same_method.
  - unfold OverLibrary.reject_bounty, reject_bounty. by same_method.
  - unfold OverLibrary.claim_bounty, claim_bounty. by same_method.
  - unfold OverLibrary.refund_bounty, refund_bounty. by same_method.
  - unfold OverLibrary.auto_refund, auto_refund. by same_method.
  - unfold OverLibrary.get_bounty_info, get_bounty_info. by same_method.
  - reflexivity.
Qed.

Lemma assumed_invoke ctx c s :
  OverLibrary.invoke assumed ctx c s = invoke ctx c s.
Proof. unfold OverLibrary.invoke, invoke. by rewrite assumed_dispatch. Qed.

Lemma assumed_run tr s : OverLibrary.run assumed tr s = run tr s.
Proof.
  revert s. induction tr as [|[ctx c] tr IH]; intros s; [done|].
  cbn [OverLibrary.run run]. by rewrite assumed_invoke, IH.
Qed.

(** ** Every method on the released library *)

Lemma bind_released_Box_length_Some {B} name b (k : Z * Z -> M B) s :
  boxes s !! name = Some b ->
  bind (op_Box_length released name) k s = k (len b, 1) s.
Proof.
  intros Hb. cbn [op_Box_length released].
  unfold bind, Released.Box_length. by rewrite Hb.
Qed.

Lemma bind_released_Box_length_None {B} name (k : Z * Z -> M B) s :
  boxes s !! name = None ->
  bind (op_Box_length released name) k s = k (0, 0) s.
Proof.
  intros Hb. cbn [op_Box_length released].
  unfold bind, Released.Box_length. by rewrite Hb.
Qed.

Lemma bind_released_Box_put {B} name off v (k : unit -> M B) s :
  bind (op_Box_put released name off v) k s = (Err ApiFault, s).
Proof. reflexivity. Qed.

Lemma bind_released_op_len {B} b (k : Z -> M B) s :
  bind (op_len released b) k s = (Err ApiFault, s).
Proof. reflexivity. Qed.

Lemma bind_sub_u64_under {B} a b (k : Z -> M B) s :
  a < b -> bind (sub_u64 a b) k s = (Err ArithFault, s).
Proof.
  intros Hlt. unfold bind, sub_u64. by rewrite (proj2 (Z.leb_gt _ _) Hlt).
Qed.

Lemma refused_intro {A} e s : e <> TransferFailed -> @refused A (Err e, s) s.
Proof. intros He. by exists e. Qed.

(** Run a method on the released library to the point where it stops. *)
Ltac released_run :=
  cbv zeta;
  match goal with
  | |- context [bind (op_Box_length released ?n) _ ?s] =>
      let Hb := fresh "Hb" in
      destruct (boxes s !! n) eqn:Hb;
      [ erewrite bind_released_Box_length_Some by eassumption
      | rewrite bind_released_Box_length_None by assumption;
        cbv beta iota zeta; rewrite bind_assert_false by reflexivity ]
  end;
  cbv beta iota zeta;
  run_cases; read_cases; run_cases;
  rewrite ?bind_released_Box_put.

Lemma released_record_call ctx c id s :
  target c = Some id ->
  exists e,
    OverLibrary.dispatch released ctx c s = (Err e, s)
    /\ e <> TransferFailed.
Proof.
  intros Hc.
  enough (H : refused (OverLibrary.dispatch released ctx c s) s) by exact H.
  destruct c; try discriminate Hc; clear Hc;
    cbn [OverLibrary.dispatch]; rewrite fmap_M_run;
    unfold OverLibrary.accept_bounty, OverLibrary.submit_bounty,
      OverLibrary.approve_bounty, OverLibrary.reject_bounty,
      OverLibrary.claim_bounty, OverLibrary.refund_bounty,
      OverLibrary.auto_refund;
    released_run; by apply refused_intro.
Qed.

Lemma released_get_bounty_info id s :
  exists e, OverLibrary.get_bounty_info released id s = (Err e, s).
Proof.
  unfold OverLibrary.get_bounty_info.
  released_run; [rewrite ?bind_sub_u64_under by lia; eauto ..].
Qed.

Lemma released_create_bounty ctx p v d t s :
  exists e s',
    OverLibrary.create_bounty released ctx p v d t s = (Err e, s')
    /\ boxes s' = boxes s /\ payments s' = payments s.
Proof.
  unfold OverLibrary.create_bounty. cbv zeta. run_cases; try (by eauto).
  unfold bind at 1, get_bounty_count_field.
  unfold bind at 1, add_u64.
  destruct (bounty_count s + 1 <? 2 ^ 64); unfold ret, fail; [|by eauto].
  unfold bind at 1, set_bounty_count. rewrite bind_released_op_len.
  by exists ApiFault, (mk_state (bounty_count s + 1) (boxes s) (payments s)).
Qed.

(** What an application call does on the released library. *)
Lemma released_invoke ctx c s :
  (c = GetCount
   /\ OverLibrary.invoke released ctx c s = (Ok (RCount (bounty_count s)), s))
  \/ (c <> GetCount
      /\ exists e, OverLibrary.invoke released ctx c s = (Err e, s)).
Proof.
  unfold OverLibrary.invoke.
  destruct (target c) as [id|] eqn:Hc.
  - right. split; [by intros ->|].
    destruct (released_record_call ctx c id s Hc) as (e & H & _).
    rewrite H. eauto.
  - destruct c; try discriminate Hc; cbn [OverLibrary.dispatch];
      rewrite fmap_M_run.
    + right. split; [done|].
      destruct (released_create_bounty ctx payment verifier deadline
                  task_description s) as (e & s' & H & _).
      rewrite H. eauto.
    + right. split; [done|].
      destruct (released_get_bounty_info bounty_id s) as (e & H).
      rewrite H. eauto.
    + left. split; reflexivity.
Qed.

Lemma released_invoke_state ctx c s :
  snd (OverLibrary.invoke released ctx c s) = s.
Proof.
  destruct (released_invoke ctx c s) as [[_ H]|[_ [e H]]]; by rewrite H.
Qed.

Lemma released_run tr s : OverLibrary.run released tr s = s.
Proof.
  induction tr as [|[ctx c] tr IH]; [done|].
  cbn [OverLibrary.run]. by rewrite released_invoke_state.
Qed.



Lemma truthy_len b : 113 <= len b -> truthy (len b) = true.
Proof.
  intros Hlen. unfold truthy. by rewrite (proj2 (Z.eqb_neq _ _)) by lia.
Qed.

Lemma released_auto_refund_before_deadline ctx id s b :
  boxes s !! box_name_of id = Some b -> 113 <= len b ->
  terminal (stored_status b) = false ->
  Global_latest_timestamp ctx < stored_deadline b ->
  OverLibrary.invoke released ctx (AutoRefund id) s
  = (Err DeadlineNotExpired, s).
Proof.
  unfold stored_status, stored_deadline. intros Hb Hlen Hst Hnow.
  apply non_terminal_checks in Hst as (H1 & H2 & H3).
  assert (Hgate : (btoi (slice 104 8 b) <=? Global_latest_timestamp ctx)
                  = false) by (apply Z.leb_gt; done).
  pose proof (truthy_len b Hlen) as Hex.
  unfold OverLibrary.invoke. cbn [OverLibrary.dispatch].
  rewrite fmap_M_run. unfold OverLibrary.auto_refund. cbv zeta.
  erewrite bind_released_Box_length_Some by eassumption.
  cbv beta iota zeta. repeat run_step. reflexivity.
Qed.

(** * The claims, on the released library *)




(** ** C4 (fails on the code): [create_bounty] followed by
    [get_bounty_info] returns the fields supplied, for every valid input,
    the empty task description included.  On the released library
    [create_bounty] never succeeds (with valid inputs it stops at [op.len],
    line 114) and [get_bounty_info] never succeeds either (on an existing
    record it stops at [box_size - UInt64(113)], line 493).  With the
    library the source assumes, [create_bounty] with an empty description
    still fails, at the eight-byte status write of line 137.  In both cases
    no record is stored and the read that follows finds none. *)
Theorem create_empty_description_fails :
  (forall ctx p v d t s,
     exists e, OverLibrary.invoke released ctx (Create p v d t) s = (Err e, s))
  /\ (forall ctx id s,
        exists e, OverLibrary.invoke released ctx (GetInfo id) s = (Err e, s))
  /\ OverLibrary.invoke released (fst create_empty) (snd create_empty) init
     = (Err ApiFault, init)
  /\ OverLibrary.invoke released (at_time alice 20) (GetInfo 0)
       (OverLibrary.run released [create_empty] init)
     = (Err NotFound, init)
  /\ invoke (fst create_empty) (snd create_empty) init = (Err BoxFault, init)
  /\ invoke (at_time alice 20) (GetInfo 0) (run [create_empty] init)
     = (Err NotFound, init).
Proof.
  split; [|split; [|split; [|split; [|split]]]].
  - intros ctx p v d t s.
    destruct (released_invoke ctx (Create p v d t) s) as [[? _]|[_ H]];
      [discriminate | exact H].
  - intros ctx id s.
    destruct (released_invoke ctx (GetInfo id) s) as [[? _]|[_ H]];
      [discriminate | exact H].
  - vm_compute. reflexivity.
  - vm_compute. reflexivity.
  - vm_compute. reflexivity.
  - vm_compute. reflexivity.
Qed.



(** ** C7 (fails on the code): [auto_refund] fails with
    [DeadlineNotExpired] before the deadline, has no caller check, and after
    the deadline succeeds on a SUBMITTED record, pays the amount to the
    client and sets the status to REFUNDED.  On the released library the
    time gate is as claimed, for every caller; but [auto_refund] never
    succeeds: on a SUBMITTED record after the deadline it stops at
    [op.Box.put], line 453, before the payment, and the record stays
    SUBMITTED.  From genesis, [create_bounty], [accept_bounty] and
    [submit_bounty] fail before it, no record exists, and [auto_refund]
    answers that the bounty is not found. *)
Theorem auto_refund_never_succeeds :
  (forall ctx id s b,
     boxes s !! box_name_of id = Some b -> 113 <= len b ->
     terminal (stored_status b) = false ->
     Global_latest_timestamp ctx < stored_deadline b ->
     OverLibrary.invoke released ctx (AutoRefund id) s
     = (Err DeadlineNotExpired, s))
  /\ (forall ctx id s,
        exists e,
          OverLibrary.invoke released ctx (AutoRefund id) s = (Err e, s))
  /\ OverLibrary.invoke released (at_time dave 109) (AutoRefund 0)
       (state_with_status x02)
     = (Err DeadlineNotExpired, state_with_status x02)
  /\ OverLibrary.invoke released (at_time dave 200) (AutoRefund 0)
       (state_with_status x02)
     = (Err ApiFault, state_with_status x02)
  /\ OverLibrary.run released [create_hello; accept_by_bob; submit_by_bob]
       init
     = init
  /\ OverLibrary.invoke released (at_time dave 200) (AutoRefund 0) init
     = (Err NotFound, init).
Proof.
  split; [|split; [|split; [|split; [|split]]]].
  - apply released_auto_refund_before_deadline.
  - intros ctx id s.
    destruct (released_invoke ctx (AutoRefund id) s) as [[? _]|[_ H]];
      [discriminate | exact H].
  - vm_compute. reflexivity.
  - vm_compute. reflexivity.
  - vm_compute. reflexivity.
  - vm_compute. reflexivity.
Qed.
